(** * polar2grid: swath extraction (drrtv/swath.py) and batch orchestration
      (viirs2awips.py), embedded in Rocq.

    The development has two parts.  Part I holds the definitions, each one
    translated from the Python function whose name it keeps.  Part II holds
    the lemmas and theorems about them.

    Conventions of the embedding.
    - Python integers are [Z]; array elements and pressures are rationals
      [Q].  The rationals idealise IEEE floats: every operation the
      statements rely on (a difference with the sentinel, a comparison with
      one half, an absolute value) is exact on the dyadic values involved.
      Coercion to 4-byte floats is recorded in the array's [dtype] tag; the
      rounding of the values is not modelled.
    - A Python exception is a value of [exn]; a call that may raise returns
      [res].  [SystemExit] and [KeyboardInterrupt] are not [StandardError]s
      (Python 2 class hierarchy), every other constructor is.
    - Names imported from modules that are not part of the sources
      (polar2grid.core.constants, polar2grid.core.fbf, the VIIRS frontend,
      the remapper, the AWIPS backend, h5py, scipy) are fields of the
      classes [StatusCodes], [Collaborators] and [SwathEnv]. *)

From Stdlib Require Import ZArith QArith Qabs Lqa List String Ascii Lia Bool Sorted.
From Stdlib Require Import DecimalString OrderedTypeEx.
Import ListNotations.
Open Scope string_scope.
Open Scope Z_scope.

(* ================================================================== *)
(** * Part I.  Definitions                                             *)
(* ================================================================== *)

(** ** Python values shared by both modules *)

(** Exceptions.  [OtherStandardError] stands for any further subclass of
    StandardError. *)
Inductive exn : Type :=
| MemoryError
| OSError
| AssertionError
| KeyError
| TypeError
| ValueError
| IndexError
| OtherStandardError
| KeyboardInterrupt
| SystemExit (code : Z).

(** [isinstance(e, StandardError)]. *)
Definition is_StandardError (e : exn) : bool :=
  match e with
  | KeyboardInterrupt | SystemExit _ => false
  | _ => true
  end.

Inductive res (A : Type) : Type :=
| Ok (a : A)
| Raise (e : exn).
Arguments Ok {A} a.
Arguments Raise {A} e.

(** [a or b] on integers: [a] when it is truthy (non-zero), else [b]. *)
Definition py_or (a b : Z) : Z := if a =? 0 then b else a.

(** [os.path.split(p)[1]]: what follows the last slash. *)
Fixpoint basename_from (acc p : string) : string :=
  match p with
  | EmptyString => acc
  | String c r =>
      if Ascii.eqb c "/" then basename_from EmptyString r
      else basename_from (acc ++ String c EmptyString) r
  end.

Definition basename (p : string) : string := basename_from EmptyString p.

(** [s.startswith(pre)]. *)
Definition startswith (pre s : string) : bool := String.prefix pre s.

(** [sorted(xs)] on strings (byte-wise lexicographic order). *)
Fixpoint insert_sorted (x : string) (l : list string) : list string :=
  match l with
  | [] => [x]
  | y :: t => if String.leb x y then x :: l else y :: insert_sorted x t
  end.

Definition sorted (l : list string) : list string :=
  fold_right insert_sorted [] l.

(** [sorted(set(xs))]. *)
Fixpoint insert_uniq (x : string) (l : list string) : list string :=
  match l with
  | [] => [x]
  | y :: t =>
      match String.compare x y with
      | Lt => x :: l
      | Eq => l
      | Gt => y :: insert_uniq x t
      end
  end.

Definition sorted_set (l : list string) : list string :=
  fold_right insert_uniq [] l.

(** ** viirs2awips.py *)

(** Modelled from the spec: polar2grid.core.constants is not among the
    sources.  The spec gives the status code as an OR-combinable bitmask
    with 0 for success; the failure flags are left open. *)
Definition STATUS_SUCCESS : Z := 0.

Class StatusCodes : Type := {
  STATUS_FRONTEND_FAIL : Z;
  STATUS_GDETER_FAIL : Z;
  STATUS_REMAP_FAIL : Z;
  STATUS_BACKEND_FAIL : Z;
  STATUS_UNKNOWN_FAIL : Z
}.

(** What [frontend.make_swaths] hands back, as far as [process_data_sets]
    looks at it: whether the seven keys it reads are present, and the keys
    of [meta_data["bands"]]. *)
Record meta_data : Type := {
  has_required_keys : bool;
  md_bands : list string
}.

Definition grid_jobs : Type := list string.

(** [remapped_jobs]: grid name -> (band -> band_dict), in iteration order. *)
Definition remapped_jobs : Type := list (string * list string).

(** The three navigation groups of [run_glue]. *)
Inductive group : Type := grp_M | grp_I | grp_DNB.

(** What happens when [run_glue] builds and starts a [Process]. *)
Inductive spawn_outcome : Type :=
| Started
| CtorRaises (e : exn)     (* Process(...) raised: the variable stays None *)
| StartRaises (e : exn).   (* start() raised: the variable is already bound *)

(** The collaborators of viirs2awips.py: the frontend, the grid
    determination, the remapper and the backend (with the workspace read
    before it), and the operating system. *)
Class Collaborators : Type := {
  make_swaths : list string -> res meta_data;
  create_grid_jobs : meta_data -> res grid_jobs;
  remap_bands : meta_data -> grid_jobs -> res remapped_jobs;
  create_product : string -> string -> res unit;
  abspath_expanduser : string -> string;
  spawn : group -> spawn_outcome
}.

(** A computation over one function's status variable ([status_to_return]
    in [process_data_sets], [exit_status] in [run_glue]).  The state is the
    list of the values the variable has held, oldest first. *)
Definition ST (A : Type) : Type := list Z -> res A * list Z.

Definition ret {A} (a : A) : ST A := fun h => (Ok a, h).

Definition raise {A} (e : exn) : ST A := fun h => (Raise e, h).

Definition bind {A B} (m : ST A) (f : A -> ST B) : ST B :=
  fun h =>
    match m h with
    | (Ok a, h') => f a h'
    | (Raise e, h') => (Raise e, h')
    end.

Notation "x <- m ;; k" := (bind m (fun x => k))
  (at level 61, m at next level, right associativity).
Notation "m ;; k" := (bind m (fun _ => k))
  (at level 61, right associativity).

Definition lift {A} (r : res A) : ST A := fun h => (r, h).

(** Assignment to the status variable. *)
Definition assign (v : Z) : ST unit := fun h => (Ok tt, (h ++ [v])%list).

(** Its current value. *)
Definition read : ST Z := fun h => (Ok (last h 0), h).

(** [var |= b]. *)
Definition ior_assign (b : Z) : ST unit :=
  s <- read ;; assign (Z.lor s b).

(** [var = var or v]. *)
Definition or_assign (v : Z) : ST unit :=
  s <- read ;; assign (py_or s v).

(** [try: x = body / except StandardError: return handler], then [k x]. *)
Definition try_except_return {A B} (body : ST A) (handler : ST B)
    (k : A -> ST B) : ST B :=
  fun h =>
    match body h with
    | (Ok a, h') => k a h'
    | (Raise e, h') =>
        if is_StandardError e then handler h' else (Raise e, h')
    end.

(** [try: body / except StandardError: handler]. *)
Definition try_except {A} (body handler : ST A) : ST A :=
  fun h =>
    match body h with
    | (Raise e, h') =>
        if is_StandardError e then handler h' else (Raise e, h')
    | r => r
    end.

Section Viirs2Awips.
Context {SC : StatusCodes} {CO : Collaborators}.

(** The inner loop of the backend stage: a band whose product fails with a
    StandardError is deleted from the grid's dictionary. *)
Fixpoint backend_bands (grid_name : string) (bands : list string)
    : res (list string) :=
  match bands with
  | [] => Ok []
  | b :: bs =>
      match create_product grid_name b with
      | Ok _ =>
          match backend_bands grid_name bs with
          | Ok kept => Ok (b :: kept)
          | Raise e => Raise e
          end
      | Raise e =>
          if is_StandardError e then backend_bands grid_name bs else Raise e
      end
  end.

(** The outer loop: a grid left with no band is deleted. *)
Fixpoint backend_grids (jobs : remapped_jobs) : res remapped_jobs :=
  match jobs with
  | [] => Ok []
  | (grid_name, bands) :: js =>
      match backend_bands grid_name bands with
      | Raise e => Raise e
      | Ok kept =>
          match backend_grids js with
          | Raise e => Raise e
          | Ok rest =>
              if (List.length kept =? 0)%nat then Ok rest
              else Ok ((grid_name, kept) :: rest)
          end
      end
  end.

Definition process_data_sets (filepaths : list string) : ST Z :=
  assign STATUS_SUCCESS ;;
  try_except_return
    (md <- lift (make_swaths filepaths) ;;
     lift (if has_required_keys md then Ok md else Raise KeyError))
    (ior_assign STATUS_FRONTEND_FAIL ;; read)
  (fun md =>
  if (List.length (md_bands md) =? 0)%nat then
    s <- read ;; ret (py_or s STATUS_UNKNOWN_FAIL)
  else
  try_except_return
    (lift (create_grid_jobs md))
    (ior_assign STATUS_GDETER_FAIL ;; read)
  (fun jobs =>
  try_except_return
    (lift (remap_bands md jobs))
    (ior_assign STATUS_REMAP_FAIL ;; read)
  (fun remapped =>
  remaining <- lift (backend_grids remapped) ;;
  (if (List.length remaining =? 0)%nat
   then ior_assign STATUS_BACKEND_FAIL else ret tt) ;;
  read))).

(** The wrapper: [sys.exit(stat)] sits inside the [try], and no [except]
    clause of it catches SystemExit, so the wrapper never returns: it
    leaves by SystemExit with the status, or with -1 after one of the four
    handlers. *)
Definition _process_data_sets (filepaths : list string) : res Z :=
  match fst (process_data_sets filepaths []) with
  | Ok stat => Raise (SystemExit stat)
  | Raise (SystemExit c) => Raise (SystemExit c)
  | Raise _ => Raise (SystemExit (-1))
  end.

(** [Process.exitcode] after [join()], for a child that ran [target]
    (multiprocessing on POSIX): the SystemExit code modulo 256, 1 for any
    other uncaught exception, 0 when the target returns. *)
Definition Process_exitcode (target : res Z) : Z :=
  match target with
  | Raise (SystemExit c) => c mod 256
  | Raise _ => 1
  | Ok _ => 0
  end.

(** The value of [pM], [pI] or [pDNB] when it is not None. *)
Inductive process : Type :=
| Unstarted
| Child (exitcode : Z).

(** One [if len(X_files) != 0:] block of [run_glue]. *)
Definition dispatch (multiprocess : bool) (g : group) (files : list string)
    : ST (option process) :=
  if (List.length files =? 0)%nat then ret None
  else if multiprocess then
    match spawn g with
    | Started =>
        ret (Some (Child (Process_exitcode (_process_data_sets files))))
    | CtorRaises e =>
        try_except (raise e)
                   (or_assign (Z.of_nat (List.length files)) ;; ret None)
    | StartRaises e =>
        try_except (raise e)
                   (or_assign (Z.of_nat (List.length files)) ;; ret (Some Unstarted))
    end
  else
    try_except
      (stat <- lift (_process_data_sets files) ;;
       or_assign stat ;; ret None)
      (or_assign (Z.of_nat (List.length files)) ;; ret None).

(** One [if pX is not None:] block; joining a process that never started
    fails the assertion of [Process.join]. *)
Definition join (p : option process) : ST unit :=
  match p with
  | None => ret tt
  | Some Unstarted => raise AssertionError
  | Some (Child exitcode) => or_assign exitcode
  end.

Definition group_files (g : group) (filepaths : list string) : list string :=
  let pre := match g with
             | grp_M => "SVM" | grp_I => "SVI" | grp_DNB => "SVDNB"
             end in
  sorted_set (filter (fun x => startswith pre (basename x))
                     (map abspath_expanduser (sorted filepaths))).

(** [run_glue]; the warning about the files of no group is a log record
    only and is left out, as are the other log calls of this module. *)
Definition run_glue (filepaths : list string) (multiprocess : bool) : ST Z :=
  let M_files := group_files grp_M filepaths in
  let I_files := group_files grp_I filepaths in
  let DNB_files := group_files grp_DNB filepaths in
  assign 0 ;;
  pM <- dispatch multiprocess grp_M M_files ;;
  pI <- dispatch multiprocess grp_I I_files ;;
  pDNB <- dispatch multiprocess grp_DNB DNB_files ;;
  join pM ;;
  join pI ;;
  join pDNB ;;
  read.

End Viirs2Awips.

(** ** drrtv/swath.py: arrays, HDF5 variables and the missing imports *)

Inductive dtype : Type := int8 | int16 | int32 | int64 | float32 | float64.

Definition dtype_eqb (a b : dtype) : bool :=
  match a, b with
  | int8, int8 | int16, int16 | int32, int32 | int64, int64
  | float32, float32 | float64, float64 => true
  | _, _ => false
  end.

(** A numpy array, row-major.  [mask = None] is a plain [ndarray] (it has
    no [mask] attribute); [mask = Some m] is a [numpy.ma.MaskedArray] with
    element mask [m]. *)
Record ndarray : Type := {
  dt : dtype;
  shape : list nat;
  data : list Q;
  mask : option (list bool)
}.

(** An h5py dataset: its stored array and [attrs['missing_value']]. *)
Record h5var : Type := {
  h5_dt : dtype;
  h5_shape : list nat;
  h5_data : list Q;
  missing_value : option (list Q)
}.

(** An open h5py.File: its [filename] and its datasets by name. *)
Record h5file : Type := {
  filename : string;
  datasets : list (string * h5var)
}.

Record datetime : Type := {
  year : Z; month : Z; day : Z; hour : Z; minute : Z; second : Z
}.

(** What swath.py takes from outside the sources: the fill value of
    polar2grid.core.constants, the suffix table of polar2grid.core.fbf,
    [datetime.strptime], the files on disk as h5py sees them ([None]:
    [h5py.is_hdf5] is false), and the values scipy's degree-1
    [RectBivariateSpline] gives on the finer grid. *)
Class SwathEnv : Type := {
  DEFAULT_FILL_VALUE : Q;
  str_to_dtype : list (string * dtype);
  strptime : string -> string -> res datetime;
  h5_read : string -> option (list (string * h5var));
  spline_eval : list nat -> list Q -> nat -> list Q
}.

Inductive level : Type := DEBUG | INFO | WARNING | ERROR.

(** An argument of a log record's format string. *)
Inductive logarg : Type :=
| AStr (s : string)
| AShape (s : list nat)
| ANum (q : Q)
| AIdx (n : nat).

(** What a run leaves behind, in order: the records sent to [LOG] (format
    string and arguments) and the flat binary files written. *)
Inductive event : Type :=
| Log (lvl : level) (fmt : string) (args : list logarg)
| FileWritten (fn : string) (d : dtype) (contents : list Q).

(** A computation that may raise and that emits events. *)
Definition W (A : Type) : Type := (res A * list event)%type.

Definition wret {A} (a : A) : W A := (Ok a, []).

Definition wraise {A} (e : exn) : W A := (Raise e, []).

Definition wbind {A B} (m : W A) (f : A -> W B) : W B :=
  match m with
  | (Ok a, l) => let (r, l') := f a in (r, (l ++ l')%list)
  | (Raise e, l) => (Raise e, l)
  end.

Declare Scope w_scope.
Delimit Scope w_scope with W.
Notation "x <~ m ;; k" := (wbind m (fun x => k))
  (at level 61, m at next level, right associativity) : w_scope.
Notation "m ;;; k" := (wbind m (fun _ => k))
  (at level 61, right associativity) : w_scope.

Definition emit (e : event) : W unit := (Ok tt, [e]).

Definition wlift {A} (r : res A) : W A := (r, []).

(** [for x in xs: body(x)], collecting the results. *)
Fixpoint wmap {A B} (f : A -> W B) (xs : list A) : W (list B) :=
  match xs with
  | [] => wret []
  | x :: t => (y <~ f x ;; ys <~ wmap f t ;; wret (y :: ys))%W
  end.

Definition Qltb (a b : Q) : bool := negb (Qle_bool b a).

(** [int(p)] of a float: truncation toward zero. *)
Definition int_of_float (p : Q) : Z := Z.quot (Qnum p) (Zpos (Qden p)).

(** ['%d' % n]. *)
Definition str_of_int (n : Z) : string := NilEmpty.string_of_int (Z.to_int n).

(** The number of elements of a shape. *)
Definition size_of (s : list nat) : nat := fold_right Nat.mul 1%nat s.

(** A Python dict as its items in order, keys unique. *)
Section Dict.
Context {K V : Type} (eqb : K -> K -> bool).

Fixpoint dict_get (d : list (K * V)) (k : K) : option V :=
  match d with
  | [] => None
  | (k', v) :: t => if eqb k k' then Some v else dict_get t k
  end.

Fixpoint dict_set (d : list (K * V)) (k : K) (v : V) : list (K * V) :=
  match d with
  | [] => [(k, v)]
  | (k', v') :: t =>
      if eqb k k' then (k, v) :: t else (k', v') :: dict_set t k v
  end.

(** [dict(pairs)]: a later pair replaces an earlier one with its key. *)
Definition dict_of (pairs : list (K * V)) : list (K * V) :=
  fold_left (fun d kv => dict_set d (fst kv) (snd kv)) pairs [].

End Dict.

Section SwathNormalizer.
Context {SE : SwathEnv}.

(** [h5_var[:]]. *)
Definition h5_all (v : h5var) : ndarray :=
  {| dt := h5_dt v; shape := h5_shape v; data := h5_data v; mask := None |}.

(** [h5v[dex,:]]: layer [dex] of a dataset of rank at least 2. *)
Definition h5_layer (v : h5var) (dex : nat) : res ndarray :=
  match h5_shape v with
  | layers :: ((_ :: _) as rest) =>
      if (dex <? layers)%nat then
        Ok {| dt := h5_dt v; shape := rest;
              data := firstn (size_of rest)
                             (skipn (dex * size_of rest) (h5_data v));
              mask := None |}
      else Raise ValueError
  | _ => Raise TypeError
  end.

(** [np.rollaxis(data, 0, 3)] on shape (layers, rows, cols): element
    [r, c, l] of the result is element [l, r, c] of the argument. *)
Definition rollaxis_0_3 (layers rows cols : nat) (d : list Q) : list Q :=
  flat_map (fun r =>
    flat_map (fun c =>
      map (fun l => nth (l * rows * cols + r * cols + c)%nat d 0%Q)
          (seq 0 layers))
      (seq 0 cols))
    (seq 0 rows).

(** [np.abs(data - mv) < 0.5], element by element. *)
Definition near_missing (mv x : Q) : bool := Qltb (Qabs (x - mv)) (1 # 2).

(** The source array of [_swath_from_var]: the tool's slice or the whole
    variable. *)
Definition select (h5_var : h5var) (tool : option (h5var -> W ndarray))
    : W ndarray :=
  match tool with
  | Some t => t h5_var
  | None => wret (h5_all h5_var)
  end.

(** The [if len(shape) == 3:] step. *)
Definition roll (var_name : string) (a : ndarray) : W ndarray :=
  match shape a with
  | [layers; rows; cols] =>
      (emit (Log DEBUG "rolling %s layer axis to last position"
                 [AStr var_name]) ;;;
       wret {| dt := dt a; shape := [rows; cols; layers];
               data := rollaxis_0_3 layers rows cols (data a);
               mask := mask a |})%W
  | _ => wret a
  end.

(** The [if 'missing_value' in h5_var.attrs:] step.  [np.min] of an empty
    array raises ValueError while the debug message is being built. *)
Definition mask_missing (var_name : string) (h5_var : h5var) (a : ndarray)
    : W ndarray :=
  match missing_value h5_var with
  | Some attr =>
      match attr with
      | [] => wraise IndexError
      | mv :: _ =>
          (emit (Log DEBUG "missing value for %s is %s"
                     [AStr var_name; ANum mv]) ;;;
           let m := map (near_missing mv) (data a) in
           let filled :=
             map (fun x => if near_missing mv x then DEFAULT_FILL_VALUE else x)
                 (data a) in
           match data a with
           | [] => wraise ValueError
           | _ :: _ =>
               emit (Log DEBUG "min, max = %s, %s" []) ;;;
               wret {| dt := dt a; shape := shape a; data := filled;
                       mask := Some m |}
           end)%W
      end
  | None =>
      (emit (Log WARNING "no missing_value attribute in %s" [AStr var_name]) ;;;
       wret {| dt := dt a; shape := shape a; data := data a;
               mask := Some (map (fun _ => false) (data a)) |})%W
  end.

Definition _swath_from_var (var_name : string) (h5_var : h5var)
    (tool : option (h5var -> W ndarray)) : W ndarray :=
  (a <~ select h5_var tool ;;
   a <~ roll var_name a ;;
   mask_missing var_name h5_var a)%W.

(** [_dict_reverse(D)]. *)
Definition _dict_reverse (D : list (string * dtype)) : list (dtype * string) :=
  dict_of dtype_eqb (map (fun kv => (snd kv, fst kv)) D).

Definition nptype_to_suffix : list (dtype * string) :=
  _dict_reverse str_to_dtype.

(** [data[mask] = DEFAULT_FILL_VALUE]. *)
Fixpoint fill_masked (d : list Q) (m : list bool) : list Q :=
  match d, m with
  | x :: d', b :: m' =>
      (if b then DEFAULT_FILL_VALUE else x) :: fill_masked d' m'
  | _, _ => d
  end.

Definition _write_array_to_fbf (name : string) (a : ndarray)
    : W (option string) :=
  match shape a with
  | [rows; cols] =>
      (a1 <~ match mask a with
             | Some m =>
                 emit (Log DEBUG "found mask for %s" [AStr name]) ;;;
                 wret {| dt := float32; shape := shape a;
                         data := fill_masked (data a) m; mask := None |}
             | None => wret a
             end ;;
       match dict_get dtype_eqb nptype_to_suffix (dt a1) with
       | None => wraise KeyError
       | Some dts =>
           let fn := name ++ "." ++ dts ++ "."
                          ++ str_of_int (Z.of_nat cols) ++ "."
                          ++ str_of_int (Z.of_nat rows) in
           emit (Log DEBUG "writing to %s..." [AStr fn]) ;;;
           emit (FileWritten fn float32 (data a1)) ;;;
           wret (Some fn)
       end)%W
  | _ =>
      (emit (Log WARNING "data %r shape is %r, ignoring"
                 [AStr name; AShape (shape a)]) ;;;
       wret None)%W
  end.

(** [np.abs(plev - p).argmin()]: the first index of the least distance. *)
Fixpoint argmin_from (best_i : nat) (best : Q) (i : nat) (l : list Q) : nat :=
  match l with
  | [] => best_i
  | x :: t =>
      if Qltb x best then argmin_from i x (S i) t
      else argmin_from best_i best (S i) t
  end.

Definition argmin (l : list Q) : res nat :=
  match l with
  | [] => Raise ValueError
  | x :: t => Ok (argmin_from 0 x 1 t)
  end.

Definition nearest_level (plev : list Q) (p : Q) : res nat :=
  argmin (map (fun x => Qabs (x - p)) plev).

Definition _layer_at_pressure (h5v : h5var) (plev : list Q) (p : Q)
    : W ndarray :=
  (dex <~ wlift (nearest_level plev p) ;;
   emit (Log DEBUG "using level %d=%f near %r as %f" [AIdx dex; ANum p]) ;;;
   wlift (h5_layer h5v dex))%W.

End SwathNormalizer.

(** ** drrtv/swath.py: the guidebook *)

(** The identifiers of polar2grid.core.constants that the guidebook names.
    Their values are not among the sources; they are kept as symbols. *)
Inductive satellite : Type := SAT_NPP | SAT_METOPA | SAT_METOPB | SAT_AQUA.
Inductive instrument : Type := INST_CRIS | INST_IASI | INST_AIRS.
Inductive nav_uid : Type := CRIS_NAV_UID | IASI_NAV_UID | AIRS_NAV_UID.

Inductive dkind : Type :=
| DKIND_CAPE | DKIND_CO2_AMOUNT | DKIND_OPTICAL_THICKNESS | DKIND_PRESSURE
| DKIND_TEMPERATURE | DKIND_EMISSIVITY | DKIND_CATEGORY | DKIND_MIXING_RATIO
| DKIND_PERCENT | DKIND_TOTAL_WATER | DKIND_TOTAL_OZONE.

Inductive bkind : Type :=
| BKIND_CAPE | BKIND_CO2_AMT | BKIND_COT | BKIND_CTP | BKIND_CTT
| BKIND_CLD_EMIS | BKIND_CMASK | BKIND_DEWPT | BKIND_H2O_MMR | BKIND_LI
| BKIND_O3_VMR | BKIND_RH | BKIND_SRF_P | BKIND_AIR_T | BKIND_SRF_T
| BKIND_H2O_TOT | BKIND_O3_TOT.

Inductive grids : Type := GRIDS_ANY.

Definition bkind_eqb (a b : bkind) : bool :=
  match a, b with
  | BKIND_CAPE, BKIND_CAPE | BKIND_CO2_AMT, BKIND_CO2_AMT
  | BKIND_COT, BKIND_COT | BKIND_CTP, BKIND_CTP | BKIND_CTT, BKIND_CTT
  | BKIND_CLD_EMIS, BKIND_CLD_EMIS | BKIND_CMASK, BKIND_CMASK
  | BKIND_DEWPT, BKIND_DEWPT | BKIND_H2O_MMR, BKIND_H2O_MMR
  | BKIND_LI, BKIND_LI | BKIND_O3_VMR, BKIND_O3_VMR | BKIND_RH, BKIND_RH
  | BKIND_SRF_P, BKIND_SRF_P | BKIND_AIR_T, BKIND_AIR_T
  | BKIND_SRF_T, BKIND_SRF_T | BKIND_H2O_TOT, BKIND_H2O_TOT
  | BKIND_O3_TOT, BKIND_O3_TOT => true
  | _, _ => false
  end.

Definition option_eqb {A} (eqb : A -> A -> bool) (a b : option A) : bool :=
  match a, b with
  | None, None => true
  | Some x, Some y => eqb x y
  | _, _ => false
  end.

(** Keys of [SAT_INST_TABLE]: (satellite id or None, instrument id). *)
Definition sat_inst_eqb (a b : option string * string) : bool :=
  option_eqb String.eqb (fst a) (fst b) && String.eqb (snd a) (snd b).

Definition SAT_INST_TABLE
    : list ((option string * string) * (satellite * instrument * Z * nav_uid)) :=
  [ ((None, "CRIS"), (SAT_NPP, INST_CRIS, 3, CRIS_NAV_UID));
    ((None, "CrIS"), (SAT_NPP, INST_CRIS, 3, CRIS_NAV_UID));
    ((Some "M02", "IASI"), (SAT_METOPA, INST_IASI, 1, IASI_NAV_UID));
    ((Some "M01", "IASI"), (SAT_METOPB, INST_IASI, 1, IASI_NAV_UID));
    ((None, "AIRS"), (SAT_AQUA, INST_AIRS, 1, AIRS_NAV_UID)) ].

Definition DEFAULT_LAYER_PRESSURES : list Q := [500 # 1; 900 # 1]%Q.

(** [VAR_TABLE], in the order of the source text.  The iteration order of
    a Python 2 dict is some fixed permutation of it; no statement below
    depends on the order. *)
Definition VAR_TABLE : list (string * (dkind * bkind * option (list Q))) :=
  [ ("CAPE", (DKIND_CAPE, BKIND_CAPE, None));
    ("CO2_Amount", (DKIND_CO2_AMOUNT, BKIND_CO2_AMT, None));
    ("COT", (DKIND_OPTICAL_THICKNESS, BKIND_COT, None));
    ("CTP", (DKIND_PRESSURE, BKIND_CTP, None));
    ("CTT", (DKIND_TEMPERATURE, BKIND_CTT, None));
    ("CldEmis", (DKIND_EMISSIVITY, BKIND_CLD_EMIS, None));
    ("Cmask", (DKIND_CATEGORY, BKIND_CMASK, None));
    ("Dewpnt", (DKIND_TEMPERATURE, BKIND_DEWPT, Some DEFAULT_LAYER_PRESSURES));
    ("H2OMMR", (DKIND_MIXING_RATIO, BKIND_H2O_MMR, Some DEFAULT_LAYER_PRESSURES));
    ("Lifted_Index", (DKIND_TEMPERATURE, BKIND_LI, None));
    ("O3VMR", (DKIND_MIXING_RATIO, BKIND_O3_VMR, Some DEFAULT_LAYER_PRESSURES));
    ("RelHum", (DKIND_PERCENT, BKIND_RH, Some DEFAULT_LAYER_PRESSURES));
    ("SurfPres", (DKIND_PRESSURE, BKIND_SRF_P, None));
    ("TAir", (DKIND_TEMPERATURE, BKIND_AIR_T, Some DEFAULT_LAYER_PRESSURES));
    ("TSurf", (DKIND_TEMPERATURE, BKIND_SRF_T, None));
    ("totH2O", (DKIND_TOTAL_WATER, BKIND_H2O_TOT, None));
    ("totO3", (DKIND_TOTAL_OZONE, BKIND_O3_TOT, None)) ].

(** ** drrtv/swath.py: the filename grammar *)

Definition in_range (lo hi : nat) (c : ascii) : bool :=
  let n := nat_of_ascii c in ((lo <=? n) && (n <=? hi))%nat.

Definition is_digit (c : ascii) : bool := in_range 48 57 c.

Definition is_alnum (c : ascii) : bool :=
  in_range 65 90 c || in_range 97 122 c || in_range 48 57 c.

(** The longest prefix whose characters satisfy [p], and what follows. *)
Fixpoint span (p : ascii -> bool) (s : string) : string * string :=
  match s with
  | EmptyString => (EmptyString, EmptyString)
  | String c r =>
      if p c then let (a, b) := span p r in (String c a, b)
      else (EmptyString, s)
  end.

(** [s] without the literal [lit] at its start. *)
Fixpoint expect (lit s : string) : option string :=
  match lit, s with
  | EmptyString, _ => Some s
  | String a l, String b r => if Ascii.eqb a b then expect l r else None
  | String _ _, EmptyString => None
  end.

(** Whether [.*?\.h5] matches at the start of [s]: the text ".h5" occurs
    with no newline before it. *)
Fixpoint lazy_dot_h5 (s : string) : bool :=
  if String.prefix ".h5" s then true
  else match s with
       | EmptyString => false
       | String c r =>
           if Ascii.eqb c "010" then false else lazy_dot_h5 r
       end.

(** [m.groupdict()]. *)
Record groupdict : Type := {
  g_inst : string;
  g_date : string;
  g_start_time : string;
  g_sat : option string
}.

(** [RE_DRRTV.match(s)].  The character classes exclude the underscore,
    the dot and the newline, so each greedy run is the longest one and
    backtracking never finds another match; the optional satellite group
    takes part whenever an underscore and a letter or digit follow the
    start time. *)
Definition RE_DRRTV_match (s : string) : option groupdict :=
  let (inst, r1) := span is_alnum s in
  if String.eqb inst EmptyString then None else
  match expect "_d" r1 with
  | None => None
  | Some r2 =>
      let (date, r3) := span is_digit r2 in
      if String.eqb date EmptyString then None else
      match expect "_t" r3 with
      | None => None
      | Some r4 =>
          let (time, r5) := span is_digit r4 in
          if String.eqb time EmptyString then None else
          let (sat, r6) :=
            match expect "_" r5 with
            | Some r =>
                let (s, r') := span is_alnum r in
                if String.eqb s EmptyString then (None, r5) else (Some s, r')
            | None => (None, r5)
            end in
          if lazy_dot_h5 r6
          then Some {| g_inst := inst; g_date := date;
                       g_start_time := time; g_sat := sat |}
          else None
      end
  end.

(** The dictionary [_filename_info] returns. *)
Record fninfo : Type := {
  fi_start_time : datetime;
  fi_nav_set_uid : nav_uid;
  fi_sat : satellite;
  fi_instrument : instrument;
  fi_rows_per_scan : Z
}.

Definition nav_uid_eqb (a b : nav_uid) : bool :=
  match a, b with
  | CRIS_NAV_UID, CRIS_NAV_UID | IASI_NAV_UID, IASI_NAV_UID
  | AIRS_NAV_UID, AIRS_NAV_UID => true
  | _, _ => false
  end.

Section SwathFiles.
Context {SE : SwathEnv}.

(** Unpacking [None] into four names raises TypeError. *)
Definition _filename_info (pathname : string) : W (option fninfo) :=
  match RE_DRRTV_match (basename pathname) with
  | None =>
      (emit (Log DEBUG "%s doesn't match DR-RTV file naming convention"
                 [AStr pathname]) ;;;
       wret None)%W
  | Some mgd =>
      (when <~ wlift (strptime (g_date mgd ++ " " ++ g_start_time mgd)
                               "%Y%m%d %H%M%S") ;;
       match
         match dict_get sat_inst_eqb SAT_INST_TABLE (g_sat mgd, g_inst mgd) with
         | Some row => Some row
         | None => dict_get sat_inst_eqb SAT_INST_TABLE (None, g_inst mgd)
         end
       with
       | None => wraise TypeError
       | Some (sat, inst, rps, nav_set_uid) =>
           wret (Some {| fi_start_time := when;
                         fi_nav_set_uid := nav_set_uid;
                         fi_sat := sat;
                         fi_instrument := inst;
                         fi_rows_per_scan := rps |})
       end)%W
  end.

(** [Frontend.sort_files_by_nav_uid]: the loop over [filepaths], from the
    dictionary [ret] built so far. *)
Fixpoint sort_files_from (ret : list (nav_uid * list string))
    (filepaths : list string) : W (list (nav_uid * list string)) :=
  match filepaths with
  | [] => wret ret
  | pn :: rest =>
      (file_info <~ _filename_info pn ;;
       match file_info with
       | None => sort_files_from ret rest
       | Some fi =>
           let uid := fi_nav_set_uid fi in
           let have := match dict_get nav_uid_eqb ret uid with
                       | Some l => l
                       | None => []
                       end in
           sort_files_from (dict_set nav_uid_eqb ret uid (have ++ [pn])%list)
                           rest
       end)%W
  end.

Definition sort_files_by_nav_uid (filepaths : list string)
    : W (list (nav_uid * list string)) :=
  sort_files_from [] filepaths.

(** [Frontend.parse_datetimes_from_filepaths]. *)
Fixpoint parse_datetimes_from_filepaths (filepaths : list string)
    : W (list datetime) :=
  match filepaths with
  | [] => wret []
  | pn :: rest =>
      (nfo <~ _filename_info pn ;;
       zult <~ parse_datetimes_from_filepaths rest ;;
       match nfo with
       | None => wret zult
       | Some fi => wret (fi_start_time fi :: zult)
       end)%W
  end.

End SwathFiles.

(** ** drrtv/swath.py: the manifest *)

(** [manifest_entry]; the tool is the partial application of
    [_layer_at_pressure] to [plev] and [p], or None. *)
Record manifest_entry : Type := {
  h5_var_name : string;
  tool : option (h5var -> W ndarray);
  me_bkind : bkind;
  me_dkind : dkind;
  bid : option string
}.

(** What the body of the loop of [_var_manifest] yields for one item of
    the table.  [if ps:] is false for None and for an empty tuple. *)
Definition manifest_rows (plev : list Q)
    (item : string * (dkind * bkind * option (list Q)))
    : list (string * manifest_entry) :=
  let '(var, (dk, bk, ps)) := item in
  match ps with
  | Some ((_ :: _) as levels) =>
      map (fun p =>
             (var ++ "_" ++ str_of_int (int_of_float p) ++ "mb",
              {| h5_var_name := var;
                 tool := Some (fun h5v => _layer_at_pressure h5v plev p);
                 me_bkind := bk;
                 me_dkind := dk;
                 bid := Some ("lvl" ++ str_of_int (int_of_float p)) |}))
          levels
  | _ =>
      [ (var, {| h5_var_name := var; tool := None;
                 me_bkind := bk; me_dkind := dk; bid := None |}) ]
  end.

(** [_var_manifest(sat, inst, plev)]: the pairs it yields, in order. *)
Definition _var_manifest (sat : satellite) (inst : instrument)
    (plev : list Q) : list (string * manifest_entry) :=
  flat_map (manifest_rows plev) VAR_TABLE.

(** The entries of a manifest that read the source variable [var]. *)
Definition entries_for (var : string)
    (manifest : list (string * manifest_entry))
    : list (string * manifest_entry) :=
  filter (fun e => String.eqb (h5_var_name (snd e)) var) manifest.

(** ** drrtv/swath.py: the extraction coordinator *)

Definition DEFAULT_EXPLODE_SAMPLING : bool := false.
Definition EXPLODE_FACTOR : nat := 64.

(** Array objects live in a store, so that a callee that modifies its
    argument in place is seen by every name bound to the same object.  A
    reference is the index of its cell; it is allocated before any use. *)
Definition heap : Type := list ndarray.

Definition alloc (h : heap) (a : ndarray) : nat * heap :=
  (List.length h, (h ++ [a])%list).

Definition deref (h : heap) (r : nat) : ndarray :=
  nth r h {| dt := float64; shape := [0%nat]; data := []; mask := None |}.

Fixpoint update (h : heap) (r : nat) (a : ndarray) : heap :=
  match h, r with
  | [], _ => []
  | _ :: t, O => a :: t
  | x :: t, S r' => x :: update t r' a
  end.

(** A callable taking one array object and returning one: it may modify
    its argument, and may return it or a new object. *)
Definition filter_fn : Type := nat -> heap -> res (nat * heap).

Fixpoint rows_of (cols rows : nat) (d : list Q) : list (list Q) :=
  match rows with
  | O => []
  | S n => firstn cols d :: rows_of cols n (skipn cols d)
  end.

(** [np.diff(row)]. *)
Fixpoint diffs (row : list Q) : list Q :=
  match row with
  | a :: ((b :: _) as t) => (b - a)%Q :: diffs t
  | _ => []
  end.

Fixpoint qmax (x : Q) (l : list Q) : Q :=
  match l with
  | [] => x
  | y :: t => qmax (if Qltb x y then y else x) t
  end.

(** The [for r in range(rows):] loop of [_make_longitude_monotonic];
    [np.max] of an empty difference raises ValueError. *)
Fixpoint needs_shift (rows : list (list Q)) : res bool :=
  match rows with
  | [] => Ok false
  | row :: rest =>
      match map Qabs (diffs row) with
      | [] => Raise ValueError
      | d :: ds =>
          if Qltb (180 # 1) (qmax d ds) then Ok true else needs_shift rest
      end
  end.

(** [_make_longitude_monotonic]: it works on the object it is given
    ([lon_swath[lon_swath < 0] += 360.0]) and returns that same object.
    The comparison is taken on the data; what numpy.ma does with masked
    elements is not modelled (the arrays it meets here come from
    [np.concatenate], whose result has nothing masked). *)
Definition _make_longitude_monotonic : filter_fn :=
  fun lon_swath h =>
    let a := deref h lon_swath in
    match shape a with
    | [rows; cols] =>
        match needs_shift (rows_of cols rows (data a)) with
        | Raise e => Raise e
        | Ok true =>
            Ok (lon_swath,
                update h lon_swath
                  {| dt := dt a; shape := shape a;
                     data := map (fun x => if Qltb x 0 then (x + (360 # 1))%Q
                                           else x) (data a);
                     mask := mask a |})
        | Ok false => Ok (lon_swath, h)
        end
    | _ => Raise ValueError
    end.

(** numpy's result type for two of the dtypes above. *)
Definition promote (a b : dtype) : dtype :=
  match a, b with
  | float64, _ | _, float64 => float64
  | float32, (int32 | int64) | (int32 | int64), float32 => float64
  | float32, _ | _, float32 => float32
  | int64, _ | _, int64 => int64
  | int32, _ | _, int32 => int32
  | int16, _ | _, int16 => int16
  | int8, int8 => int8
  end.

Definition shape_eqb (a b : list nat) : bool :=
  if list_eq_dec Nat.eq_dec a b then true else false.

(** [np.concatenate(sections, axis=0)] of masked arrays: a masked array
    with the data joined in order and nothing masked (numpy does not keep
    the masks of its arguments). *)
Definition concatenate (sections : list ndarray) : res ndarray :=
  match sections with
  | [] => Raise ValueError
  | a :: rest =>
      match shape a with
      | [] => Raise ValueError
      | _ :: tail =>
          if forallb (fun b => match shape b with
                               | _ :: t => shape_eqb t tail
                               | [] => false
                               end) rest
          then
            let d := List.concat (map data sections) in
            Ok {| dt := fold_left promote (map dt rest) (dt a);
                  shape := fold_right Nat.add 0%nat
                             (map (fun b => hd 0%nat (shape b)) sections)
                           :: tail;
                  data := d;
                  mask := Some (map (fun _ => false) d) |}
          else Raise ValueError
      end
  end.

(** One band's metadata, as built in the loop of [swathbuckler]. *)
Record band : Type := {
  b_band : option string;
  b_data_kind : dkind;
  b_remap_data_as : dkind;
  b_kind : bkind;
  b_fbf_img : option string;
  b_swath_rows : Z;
  b_swath_cols : Z;
  b_swath_scans : Z;
  b_rows_per_scan : Z;
  b_grids : grids
}.

Definition band_key : Type := (bkind * option string)%type.

Definition band_key_eqb (a b : band_key) : bool :=
  bkind_eqb (fst a) (fst b) && option_eqb String.eqb (snd a) (snd b).

(** The dictionary [nfo] that [swathbuckler] returns. *)
Record swath_meta : Type := {
  swath_rows : Z;
  swath_cols : Z;
  swath_scans : Z;
  _plev : list Q;
  start_time : datetime;
  nav_set_uid : nav_uid;
  sat : satellite;
  instrument_of : instrument;
  rows_per_scan : Z;
  bands : list (band_key * band);
  fbf_lat : option string;
  fbf_lon : option string
}.

Section SwathCoordinator.
Context {SE : SwathEnv}.

Definition _explode (a : ndarray) (factor : nat) : res ndarray :=
  match shape a with
  | [rows; cols] =>
      Ok {| dt := float32;
            shape := [(rows * factor)%nat; (cols * factor)%nat];
            data := spline_eval [rows; cols] (data a) factor;
            mask := None |}
  | _ => Raise ValueError
  end.

Fixpoint _swath_shape_from (layers rows cols : nat) (h5s : list h5file)
    : res (nat * nat * nat) :=
  match h5s with
  | [] => Ok (layers, rows, cols)
  | h5 :: rest =>
      match dict_get String.eqb (datasets h5) "RelHum" with
      | None => Raise KeyError
      | Some rh =>
          match h5_shape rh with
          | [l; r; c] =>
              _swath_shape_from (if (layers =? 0)%nat then l else layers)
                                (rows + r)%nat
                                (if (cols =? 0)%nat then c else cols) rest
          | _ => Raise ValueError
          end
      end
  end.

Definition _swath_shape (h5s : list h5file) : res (nat * nat * nat) :=
  _swath_shape_from 0 0 0 h5s.

(** [_swath_info]; the result already has the fields [swathbuckler] adds
    later, empty. *)
Definition _swath_info (h5s : list h5file) : W swath_meta :=
  match h5s with
  | [] => wraise IndexError
  | first :: _ =>
      (fn_info <~ _filename_info (filename first) ;;
       emit (Log DEBUG "%s" []) ;;;
       shp <~ wlift (_swath_shape h5s) ;;
       let '(layers, rows, cols) := shp in
       match fn_info with
       | None => wraise TypeError
       | Some fi =>
           let rps := fi_rows_per_scan fi in
           if rps =? 0 then wraise OtherStandardError else
           match dict_get String.eqb (datasets first) "Plevs" with
           | None => wraise KeyError
           | Some pv =>
               wret {| swath_rows := Z.of_nat rows;
                       swath_cols := Z.of_nat cols;
                       swath_scans := Z.of_nat rows / rps;
                       _plev := h5_data pv;
                       start_time := fi_start_time fi;
                       nav_set_uid := fi_nav_set_uid fi;
                       sat := fi_sat fi;
                       instrument_of := fi_instrument fi;
                       rows_per_scan := rps;
                       bands := [];
                       fbf_lat := None;
                       fbf_lon := None |}
           end
       end)%W
  end.

(** The closure [_gobble] of [swathbuckler], with [h5s] as its first
    argument.  [swath], [swarthy] and [arr_a_pirate] are references: when
    [explode] is off the array written is the object [swath] as it is
    after the filter ran. *)
Definition _gobble (h5s : list h5file) (name var_name : string)
    (tool : option (h5var -> W ndarray)) (explode : bool)
    (filter : option filter_fn) : W (option string) :=
  (sections <~ wmap (fun h5 =>
                       match dict_get String.eqb (datasets h5) var_name with
                       | None => wraise KeyError
                       | Some v => _swath_from_var var_name v tool
                       end) h5s ;;
   joined <~ wlift (concatenate sections) ;;
   let (swath, h0) := alloc [] joined in
   filtered <~ wlift (match filter with
                      | None => Ok (swath, h0)
                      | Some f => f swath h0
                      end) ;;
   let (swarthy, h1) := (filtered : nat * heap) in
   arr_a_pirate <~ wlift (if explode
                          then _explode (deref h1 swarthy) EXPLODE_FACTOR
                          else Ok (deref h1 swath)) ;;
   _write_array_to_fbf name arr_a_pirate)%W.

(** The first loop of [swathbuckler]: the set [bad_files]. *)
Fixpoint find_bad_files (bad : list string) (pns : list string)
    : W (list string) :=
  match pns with
  | [] => wret bad
  | pn :: rest =>
      let add (s : list string) :=
        if existsb (String.eqb pn) s then s else (s ++ [pn])%list in
      (bad1 <~ match h5_read pn with
               | Some _ => wret bad
               | None =>
                   emit (Log WARNING "%s is not a proper HDF5 file"
                             [AStr pn]) ;;;
                   wret (add bad)
               end ;;
       find_bad_files
         (match RE_DRRTV_match (basename pn) with
          | Some _ => bad1
          | None => add bad1
          end) rest)%W
  end.

(** [h5py.File(pn, 'r')] for each name that is left. *)
Definition open_all (pns : list string) : list h5file :=
  flat_map (fun pn => match h5_read pn with
                      | Some ds => [ {| filename := pn; datasets := ds |} ]
                      | None => []
                      end) pns.

(** The last loop of [swathbuckler], [for name, guide in manifest.items()],
    from the dictionary [bands] built so far. *)
Fixpoint extract_bands (h5s : list h5file) (nfo : swath_meta)
    (manifest : list (string * manifest_entry))
    (bands : list (band_key * band)) : W (list (band_key * band)) :=
  match manifest with
  | [] => wret bands
  | (name, guide) :: rest =>
      (emit (Log DEBUG "extracting %s from variable %s"
                 [AStr name; AStr (h5_var_name guide)]) ;;;
       fn <~ _gobble h5s name (h5_var_name guide) (tool guide)
                     DEFAULT_EXPLODE_SAMPLING None ;;
       let b := {| b_band := bid guide;
                   b_data_kind := me_dkind guide;
                   b_remap_data_as := me_dkind guide;
                   b_kind := me_bkind guide;
                   b_fbf_img := fn;
                   b_swath_rows := swath_rows nfo;
                   b_swath_cols := swath_cols nfo;
                   b_swath_scans := swath_scans nfo;
                   b_rows_per_scan := rows_per_scan nfo;
                   b_grids := GRIDS_ANY |} in
       extract_bands h5s nfo rest
         (dict_set band_key_eqb bands (me_bkind guide, bid guide) b))%W
  end.

(** The statements of [swathbuckler] before its last loop: the usable
    files, the metadata with the latitude and longitude files written, and
    the manifest.  [None] stands for the early [return {}] when no input is
    usable. *)
Definition swath_setup (h5_pathnames : list string)
    : W (option (list h5file * swath_meta * list (string * manifest_entry))) :=
  (bad_files <~ find_bad_files [] h5_pathnames ;;
   (match bad_files with
    | [] => wret tt
    | _ :: _ =>
        emit (Log WARNING
                  "These files are not usable and will be ignored: %s"
                  (map AStr bad_files))
    end) ;;;
   let usable :=
     filter (fun x => negb (existsb (String.eqb x) bad_files))
            h5_pathnames in
   let h5s := open_all usable in
   match h5s with
   | [] =>
       emit (Log ERROR "no input was available to process!" []) ;;;
       wret None
   | _ :: _ =>
       nfo <~ _swath_info h5s ;;
       let manifest :=
         dict_of String.eqb
                 (_var_manifest (sat nfo) (instrument_of nfo) (_plev nfo)) in
       emit (Log DEBUG "manifest to extract: %s" (map AStr (map fst manifest))) ;;;
       lat <~ _gobble h5s "swath_latitude" "Latitude" None
                      DEFAULT_EXPLODE_SAMPLING None ;;
       lon <~ _gobble h5s "swath_longitude" "Longitude" None
                      DEFAULT_EXPLODE_SAMPLING None ;;
       let k := if DEFAULT_EXPLODE_SAMPLING
                then Z.of_nat EXPLODE_FACTOR else 1 in
       wret (Some (h5s,
                   {| swath_rows := swath_rows nfo * k;
                      swath_cols := swath_cols nfo * k;
                      swath_scans := swath_scans nfo;
                      _plev := _plev nfo;
                      start_time := start_time nfo;
                      nav_set_uid := nav_set_uid nfo;
                      sat := sat nfo;
                      instrument_of := instrument_of nfo;
                      rows_per_scan := rows_per_scan nfo * k;
                      bands := [];
                      fbf_lat := lat;
                      fbf_lon := lon |},
                   manifest))
   end)%W.

(** [swathbuckler], called with the path names: the setup, then the loop
    over the manifest, with no handler around either; [None] is the empty
    dictionary it returns when no input is usable. *)
Definition swathbuckler (h5_pathnames : list string)
    : W (option swath_meta) :=
  (setup <~ swath_setup h5_pathnames ;;
   match setup with
   | None => wret None
   | Some (h5s, nfo, manifest) =>
       bs <~ extract_bands h5s nfo manifest [] ;;
       emit (Log DEBUG "metadata: %s" []) ;;;
       wret (Some {| swath_rows := swath_rows nfo;
                     swath_cols := swath_cols nfo;
                     swath_scans := swath_scans nfo;
                     _plev := _plev nfo;
                     start_time := start_time nfo;
                     nav_set_uid := nav_set_uid nfo;
                     sat := sat nfo;
                     instrument_of := instrument_of nfo;
                     rows_per_scan := rows_per_scan nfo;
                     bands := bs;
                     fbf_lat := fbf_lat nfo;
                     fbf_lon := fbf_lon nfo |})
   end)%W.

End SwathCoordinator.

(** ** Concrete inputs used by the examples of Part II *)

(** Modelled from the spec: the five failure flags as distinct bits of an
    OR-combinable mask (the values in polar2grid.core.constants are not
    among the sources). *)
Definition bitmask_status : StatusCodes :=
  {| STATUS_FRONTEND_FAIL := 1;
     STATUS_GDETER_FAIL := 2;
     STATUS_REMAP_FAIL := 4;
     STATUS_BACKEND_FAIL := 8;
     STATUS_UNKNOWN_FAIL := 16 |}.

Inductive stage : Type :=
| Frontend | GridDetermination | Remapping | Backend.

Definition stage_eqb (a b : stage) : bool :=
  match a, b with
  | Frontend, Frontend | GridDetermination, GridDetermination
  | Remapping, Remapping | Backend, Backend => true
  | _, _ => false
  end.

(** Whether the plan makes stage [s] fail for one of the files. *)
Definition fails_at (plan : string -> option stage) (s : stage)
    (files : list string) : bool :=
  existsb (fun f => match plan f with
                    | Some s' => stage_eqb s s'
                    | None => false
                    end) files.

(** Collaborators with injected failures: [plan] names, per input file,
    the stage that raises for the group holding that file.  The bands of a
    group are called after its files; paths are absolute already and every
    process starts. *)
Definition injected (plan : string -> option stage) : Collaborators :=
  {| make_swaths := fun files =>
       if fails_at plan Frontend files then Raise OtherStandardError
       else Ok {| has_required_keys := true; md_bands := files |};
     create_grid_jobs := fun md =>
       if fails_at plan GridDetermination (md_bands md)
       then Raise OtherStandardError else Ok ["grid211"];
     remap_bands := fun md jobs =>
       if fails_at plan Remapping (md_bands md) then Raise OtherStandardError
       else Ok (map (fun g => (g, md_bands md)) jobs);
     create_product := fun _ b =>
       if fails_at plan Backend [b] then Raise OtherStandardError else Ok tt;
     abspath_expanduser := fun p => p;
     spawn := fun _ => Started |}.

Definition two_group_batch : list string :=
  [ "/data/SVM01_npp_d20130117.h5"; "/data/SVI01_npp_d20130117.h5" ].

(** The M group fails in the frontend, the I group in grid determination. *)
Definition plan_both_fail (f : string) : option stage :=
  if String.eqb f "/data/SVM01_npp_d20130117.h5" then Some Frontend
  else if String.eqb f "/data/SVI01_npp_d20130117.h5"
       then Some GridDetermination else None.

(** The M group succeeds, the I group fails in the frontend. *)
Definition plan_I_fails (f : string) : option stage :=
  if String.eqb f "/data/SVI01_npp_d20130117.h5" then Some Frontend else None.

Definition iasi_path : string :=
  "/data/IASI_d20130310_t152624_M02.atm_prof_rtv.h5".

Definition full_path : string :=
  "/data/CrIS_d20130310_t152624.atm_prof_rtv.h5".

Definition var_1x2 (a b : Q) : h5var :=
  {| h5_dt := float32; h5_shape := [1; 2]%nat; h5_data := [a; b];
     missing_value := Some [(-999 # 1)%Q] |}.

Definition var_2x1x2 : h5var :=
  {| h5_dt := float32; h5_shape := [2; 1; 2]%nat;
     h5_data := [10 # 1; 20 # 1; 30 # 1; 40 # 1]%Q;
     missing_value := Some [(-999 # 1)%Q] |}.

Definition plevs_500_900 : h5var :=
  {| h5_dt := float32; h5_shape := [2%nat];
     h5_data := DEFAULT_LAYER_PRESSURES; missing_value := None |}.

(** A retrieval file that holds the geolocation, RelHum and Plevs and none
    of the other variables of the guidebook. *)
Definition sparse_datasets : list (string * h5var) :=
  [ ("Latitude", var_1x2 (45 # 1) (46 # 1));
    ("Longitude", var_1x2 (170 # 1) (-170 # 1));
    ("RelHum", var_2x1x2);
    ("Plevs", plevs_500_900) ].

(** A retrieval file with every variable of the guidebook; CAPE is stored
    with rank 1. *)
Definition full_datasets : list (string * h5var) :=
  ([ ("Latitude", var_1x2 (45 # 1) (46 # 1));
     ("Longitude", var_1x2 (170 # 1) (-170 # 1));
     ("Plevs", plevs_500_900);
     ("CAPE", {| h5_dt := float32; h5_shape := [2%nat];
                 h5_data := [1 # 1; 2 # 1]%Q;
                 missing_value := Some [(-999 # 1)%Q] |}) ]
   ++ map (fun item =>
             (fst item,
              match snd (snd item) with
              | Some _ => var_2x1x2
              | None => var_1x2 (1 # 1) (2 # 1)
              end)) (tl VAR_TABLE))%list.

(** An environment for the examples: the fill value and the suffix table
    are sample values (the spec names "real4" for 4-byte floats), every
    date parses, and the disk holds the two files above. *)
Definition sample_env : SwathEnv :=
  {| DEFAULT_FILL_VALUE := (-999 # 1)%Q;
     str_to_dtype := [ ("int1", int8); ("int2", int16); ("int4", int32);
                       ("int8", int64); ("real4", float32);
                       ("real8", float64) ];
     strptime := fun _ _ =>
       Ok {| year := 2013; month := 3; day := 10;
             hour := 15; minute := 26; second := 24 |};
     h5_read := fun pn =>
       if String.eqb pn iasi_path then Some sparse_datasets
       else if String.eqb pn full_path then Some full_datasets
       else None;
     spline_eval := fun _ d _ => d |}.


Definition masked_float64_252x60 : ndarray :=
  {| dt := float64; shape := [252; 60]%nat;
     data := repeat (0 # 1)%Q (252 * 60);
     mask := Some (repeat false (252 * 60)) |}.

(** ** Vocabulary of the statements *)

(** Every bit set in [a] is set in [b]. *)
Definition bits_le (a b : Z) : Prop :=
  forall n, 0 <= n -> Z.testbit a n = true -> Z.testbit b n = true.

(** A history of a status variable in which every value keeps the bits of
    all the values before it. *)
Definition accumulates (h : list Z) : Prop := StronglySorted bits_le h.

(** A computation keeps the invariant when it turns an accumulating history
    into one. *)
Definition keeps {A} (m : ST A) : Prop :=
  forall h, accumulates h -> accumulates (snd (m h)).

(** A computation returns the status when, besides, the value it returns
    has every bit of the last value of the variable. *)
Definition returns_status (m : ST Z) : Prop :=
  forall h, accumulates h ->
    accumulates (snd (m h)) /\
    forall v, fst (m h) = Ok v -> bits_le (last (snd (m h)) 0) v.

(** The first non-zero value of a list, 0 when there is none. *)
Definition first_nonzero (l : list Z) : Z :=
  match find (fun z => negb (z =? 0)) l with
  | Some z => z
  | None => 0
  end.

(** The bitwise OR of all the values of a list. *)
Definition bitwise_or_all (l : list Z) : Z := fold_right Z.lor 0 l.

Section BatchVocabulary.
Context {SC : StatusCodes} {CO : Collaborators}.

(** The terminal status of the worker of a group. *)
Definition worker_status (files : list string) : Z :=
  Process_exitcode (_process_data_sets files).

(** The terminal statuses of the non-empty groups of a batch, in the order
    M, I, DNB. *)
Definition group_statuses (filepaths : list string) : list Z :=
  flat_map (fun g => match group_files g filepaths with
                     | [] => []
                     | (_ :: _) as files => [worker_status files]
                     end)
           [grp_M; grp_I; grp_DNB].

End BatchVocabulary.

(** Whether element [i] of an array is masked. *)
Definition masked_at (a : ndarray) (i : nat) : bool :=
  match mask a with
  | Some m => nth i m false
  | None => false
  end.

(** The open and the closed interval of half a unit around -999. *)
Definition strictly_near_999 (x : Q) : Prop :=
  ((-1999 # 2) < x /\ x < (-1997 # 2))%Q.

Definition within_closed_999 (x : Q) : Prop :=
  ((-1999 # 2) <= x /\ x <= (-1997 # 2))%Q.

(** A variable whose two values are the end points of the closed interval. *)
Definition end_points_var : h5var :=
  {| h5_dt := float32; h5_shape := [1; 2]%nat;
     h5_data := [(-1999 # 2)%Q; (-1997 # 2)%Q];
     missing_value := Some [(-999 # 1)%Q] |}.

(** A variable with one value strictly inside the interval and one far
    from it. *)
Definition inside_outside_var : h5var :=
  {| h5_dt := float32; h5_shape := [1; 2]%nat;
     h5_data := [(-3997 # 4)%Q; (250 # 1)%Q];
     missing_value := Some [(-999 # 1)%Q] |}.

(** A filter that returns a fresh copy of its argument and leaves the
    argument as it was. *)
Definition copying_filter : filter_fn :=
  fun r h => Ok (alloc h (deref h r)).

(** A path that follows the grammar and names an instrument the guidebook
    does not know. *)
Definition modis_path : string := "/data/MODIS_d20130310_t152624.h5".




Section CoordinatorVocabulary.
Context {SE : SwathEnv}.





End CoordinatorVocabulary.

(** ** Vocabulary of the further statements *)

(** The prefix of the basenames of a group of [run_glue]. *)
Definition group_prefix (g : group) : string :=
  match g with
  | grp_M => "SVM"
  | grp_I => "SVI"
  | grp_DNB => "SVDNB"
  end.

(** A list of strings in strictly increasing order. *)
Definition strictly_sorted (l : list string) : Prop :=
  StronglySorted (fun a b => String.compare a b = Lt) l.


(** Collaborators whose backend fails for the I band and works for the M
    band of the two-file batch, all in one group. *)
Definition plan_backend_I (f : string) : option stage :=
  if String.eqb f "/data/SVI01_npp_d20130117.h5" then Some Backend else None.

(** Whether every character of a string satisfies [p], and whether its
    first character does. *)
Fixpoint all_chars (p : ascii -> bool) (s : string) : bool :=
  match s with
  | EmptyString => true
  | String c r => p c && all_chars p r
  end.

Definition starts_with (p : ascii -> bool) (s : string) : bool :=
  match s with
  | EmptyString => false
  | String c _ => p c
  end.

(** The text the optional satellite group of the grammar matches. *)
Definition sat_text (sat : option string) : string :=
  match sat with
  | Some x => "_" ++ x
  | None => EmptyString
  end.

(** A file name put together from the pieces of the grammar. *)
Definition drrtv_name (inst date time : string) (sat : option string)
    (rest : string) : string :=
  inst ++ "_d" ++ date ++ "_t" ++ time ++ sat_text sat ++ rest.

(** What may follow the last named piece, so that the piece ends there:
    after a satellite no letter or digit; after a start time with no
    satellite no digit and no underscore followed by a letter or digit. *)
Definition ends_piece (sat : option string) (rest : string) : bool :=
  match sat with
  | Some _ => negb (starts_with is_alnum rest)
  | None =>
      negb (starts_with is_digit rest) &&
      negb (match expect "_" rest with
            | Some r => starts_with is_alnum r
            | None => false
            end)
  end.

Section ClassifierVocabulary.
Context {SE : SwathEnv}.

(** The navigation set of a path, when [_filename_info] gives one. *)
Definition nav_uid_of (pn : string) : option nav_uid :=
  match fst (_filename_info pn) with
  | Ok (Some fi) => Some (fi_nav_set_uid fi)
  | _ => None
  end.

(** The paths of a list that belong to a navigation set, in their order. *)
Definition files_of_uid (uid : nav_uid) (filepaths : list string)
    : list string :=
  filter (fun pn => match nav_uid_of pn with
                    | Some u => nav_uid_eqb u uid
                    | None => false
                    end) filepaths.

End ClassifierVocabulary.

(** What the loop of [sort_files_by_nav_uid] adds to a dictionary. *)
Definition grouped (before : option (list string)) (more : list string)
    : option (list string) :=
  match before, more with
  | None, [] => None
  | None, _ :: _ => Some more
  | Some l, _ => Some (l ++ more)%list
  end.

(** The shape of the RelHum dataset of a file, and its number of rows. *)
Definition relhum_shape (h5 : h5file) : option (list nat) :=
  option_map h5_shape (dict_get String.eqb (datasets h5) "RelHum").

Definition relhum_rows (h5 : h5file) : nat :=
  match relhum_shape h5 with
  | Some [_; r; _] => r
  | _ => 0%nat
  end.

(** Two files whose RelHum datasets disagree on layers and columns. *)
Definition file_2x1x2 : h5file :=
  {| filename := iasi_path; datasets := [("RelHum", var_2x1x2)] |}.

Definition file_5x3x7 : h5file :=
  {| filename := full_path;
     datasets := [("RelHum",
                   {| h5_dt := float32; h5_shape := [5; 3; 7]%nat;
                      h5_data := []; missing_value := None |})] |}.

(** A longitude swath of two rows; only the second row crosses the date
    line. *)
Definition lon_2x2 : ndarray :=
  {| dt := float32; shape := [2; 2]%nat;
     data := [(-10 # 1)%Q; (10 # 1)%Q; (170 # 1)%Q; (-170 # 1)%Q];
     mask := Some [false; false; false; false] |}.

(** An event that is a file written. *)
Definition is_file (e : event) : bool :=
  match e with
  | FileWritten _ _ _ => true
  | Log _ _ _ => false
  end.

(** The key under which the loop of [swathbuckler] records an entry. *)
Definition entry_key (entry : string * manifest_entry) : band_key :=
  (me_bkind (snd entry), bid (snd entry)).

(** The keys of the manifest, in its order. *)
Definition guidebook_keys : list band_key :=
  map entry_key (dict_of String.eqb (_var_manifest SAT_NPP INST_CRIS [])).

(** The keys of a dictionary after one more key is set. *)
Definition add_key (keys : list band_key) (k : band_key) : list band_key :=
  if existsb (band_key_eqb k) keys then keys else (keys ++ [k])%list.

(** A band descriptor that carries the geometry of the metadata and the
    kind and band of its key. *)
Definition band_agrees (nfo : swath_meta) (kb : band_key * band) : Prop :=
  b_swath_rows (snd kb) = swath_rows nfo /\
  b_swath_cols (snd kb) = swath_cols nfo /\
  b_swath_scans (snd kb) = swath_scans nfo /\
  b_rows_per_scan (snd kb) = rows_per_scan nfo /\
  b_kind (snd kb) = fst (fst kb) /\
  b_band (snd kb) = snd (fst kb).

(** A file name that is None or names a file among the events. *)
Definition written_in (ev : list event) (fn : option string) : Prop :=
  match fn with
  | None => True
  | Some f => exists contents, In (FileWritten f float32 contents) ev
  end.

(* ================================================================== *)
(** * Part II.  Lemmas and theorems                                    *)
(* ================================================================== *)

(** ** Bit inclusion *)

Lemma bits_le_refl (a : Z) : bits_le a a.
Proof. intros n _ H; exact H. Qed.

Lemma bits_le_trans (a b c : Z) : bits_le a b -> bits_le b c -> bits_le a c.
Proof. intros Hab Hbc n Hn H. apply Hbc, Hab; assumption. Qed.

Lemma bits_le_zero (a : Z) : bits_le 0 a.
Proof. intros n _ H. rewrite Z.bits_0 in H. discriminate. Qed.

Lemma bits_le_lor (a b : Z) : bits_le a (Z.lor a b).
Proof. intros n _ H. rewrite Z.lor_spec, H. reflexivity. Qed.

Lemma bits_le_py_or (a b : Z) : bits_le a (py_or a b).
Proof.
  unfold py_or. destruct (Z.eqb_spec a 0) as [-> | _].
  - apply bits_le_zero.
  - apply bits_le_refl.
Qed.

Create HintDb status.

#[local] Hint Resolve bits_le_refl bits_le_zero bits_le_lor bits_le_py_or
  : status.

(** ** Histories of a status variable *)

Lemma accumulates_last (h : list Z) (x : Z) :
  accumulates h -> In x h -> bits_le x (last h 0).
Proof.
  induction 1 as [| a t Ht IH Ha]; intros Hin; [destruct Hin |].
  destruct t as [| b t'].
  - destruct Hin as [<- | []]. apply bits_le_refl.
  - change (last (a :: b :: t') 0) with (last (b :: t') 0).
    destruct Hin as [<- | Hin].
    + rewrite Forall_forall in Ha. apply Ha.
      clear. generalize b. induction t' as [| c t IH]; intros b0.
      * left; reflexivity.
      * right. apply IH.
    + apply IH, Hin.
Qed.

Lemma accumulates_snoc (h : list Z) (v : Z) :
  accumulates h -> bits_le (last h 0) v -> accumulates (h ++ [v]).
Proof.
  intros Hh Hv.
  assert (Hall : forall x, In x h -> bits_le x v).
  { intros x Hx. eapply bits_le_trans; [apply accumulates_last |]; eassumption. }
  clear Hv. induction Hh as [| a t Ht IH Ha]; simpl.
  - repeat constructor.
  - constructor.
    + apply IH. intros x Hx. apply Hall. right; exact Hx.
    + apply Forall_app. split; [exact Ha |].
      constructor; [| constructor]. apply Hall. left; reflexivity.
Qed.

Lemma accumulates_all_below (h : list Z) (v : Z) :
  accumulates h -> bits_le (last h 0) v -> Forall (fun s => bits_le s v) h.
Proof.
  intros Hh Hv. apply Forall_forall. intros x Hx.
  eapply bits_le_trans; [apply accumulates_last |]; eassumption.
Qed.

Lemma keeps_ret {A} (a : A) : keeps (ret a).
Proof. intros h Hh; exact Hh. Qed.

Lemma keeps_raise {A} (e : exn) : keeps (@raise A e).
Proof. intros h Hh; exact Hh. Qed.

Lemma keeps_lift {A} (r : res A) : keeps (lift r).
Proof. intros h Hh; exact Hh. Qed.

Lemma keeps_bind {A B} (m : ST A) (f : A -> ST B) :
  keeps m -> (forall a, keeps (f a)) -> keeps (bind m f).
Proof.
  intros Hm Hf h Hh. unfold bind. specialize (Hm h Hh).
  destruct (m h) as [[a | e] h']; simpl in *; [apply Hf |]; assumption.
Qed.

Lemma keeps_ior_assign (b : Z) : keeps (ior_assign b).
Proof.
  intros h Hh. cbn. apply accumulates_snoc; auto with status.
Qed.

Lemma keeps_or_assign (v : Z) : keeps (or_assign v).
Proof.
  intros h Hh. cbn. apply accumulates_snoc; auto with status.
Qed.

Lemma keeps_try_except {A} (body handler : ST A) :
  keeps body -> keeps handler -> keeps (try_except body handler).
Proof.
  intros Hb Hh h Hacc. unfold try_except. specialize (Hb h Hacc).
  destruct (body h) as [[a | e] h']; simpl in *; [assumption |].
  destruct (is_StandardError e); [apply Hh |]; assumption.
Qed.

#[local] Hint Resolve keeps_ret keeps_raise keeps_lift keeps_ior_assign
  keeps_or_assign : status.

Lemma returns_status_read : returns_status read.
Proof.
  intros h Hh. cbn. split; [exact Hh |].
  intros v [= <-]. apply bits_le_refl.
Qed.

Lemma returns_status_bind {A} (m : ST A) (f : A -> ST Z) :
  keeps m -> (forall a, returns_status (f a)) -> returns_status (bind m f).
Proof.
  intros Hm Hf h Hh. unfold bind. specialize (Hm h Hh).
  destruct (m h) as [[a | e] h']; simpl in *.
  - apply Hf, Hm.
  - split; [exact Hm | discriminate].
Qed.

Lemma returns_status_try_except_return {A} (body : ST A) (handler : ST Z)
    (k : A -> ST Z) :
  keeps body -> returns_status handler -> (forall a, returns_status (k a)) ->
  returns_status (try_except_return body handler k).
Proof.
  intros Hb Hh Hk h Hacc. unfold try_except_return. specialize (Hb h Hacc).
  destruct (body h) as [[a | e] h']; simpl in *.
  - apply Hk, Hb.
  - destruct (is_StandardError e).
    + apply Hh, Hb.
    + split; [exact Hb | discriminate].
Qed.

Lemma returns_status_or_default (d : Z) :
  returns_status (s <- read ;; ret (py_or s d)).
Proof.
  intros h Hh. cbn. split; [exact Hh |].
  intros v [= <-]. apply bits_le_py_or.
Qed.

Section Viirs2AwipsFacts.
Context {SC : StatusCodes} {CO : Collaborators}.

Lemma keeps_dispatch (mp : bool) (g : group) (files : list string) :
  keeps (dispatch mp g files).
Proof.
  unfold dispatch.
  destruct (List.length files =? 0)%nat; [apply keeps_ret |].
  destruct mp.
  - destruct (spawn g); auto with status;
      apply keeps_try_except; auto with status;
      apply keeps_bind; auto with status.
  - apply keeps_try_except.
    + apply keeps_bind; auto with status. intros stat.
      apply keeps_bind; auto with status.
    + apply keeps_bind; auto with status.
Qed.

Lemma keeps_join (p : option process) : keeps (join p).
Proof. destruct p as [[| c] |]; cbn; auto with status. Qed.

Lemma process_data_sets_after_init (filepaths : list string)
    (rest : unit -> ST Z) :
  process_data_sets filepaths = bind (assign STATUS_SUCCESS) rest ->
  returns_status (rest tt) ->
  accumulates (snd (process_data_sets filepaths [])) /\
  forall v, fst (process_data_sets filepaths []) = Ok v ->
            bits_le (last (snd (process_data_sets filepaths [])) 0) v.
Proof.
  intros Heq Hrest. rewrite Heq.
  change (bind (assign STATUS_SUCCESS) rest [])
    with (rest tt [STATUS_SUCCESS]).
  apply Hrest. repeat constructor.
Qed.

Lemma process_data_sets_history (filepaths : list string) :
  accumulates (snd (process_data_sets filepaths [])) /\
  forall v, fst (process_data_sets filepaths []) = Ok v ->
            bits_le (last (snd (process_data_sets filepaths [])) 0) v.
Proof.
  eapply process_data_sets_after_init; [reflexivity |].
  cbv beta.
  apply returns_status_try_except_return.
  { apply keeps_bind; auto with status. }
  { apply returns_status_bind; auto with status. intros _.
    apply returns_status_read. }
  intros md.
  destruct (List.length (md_bands md) =? 0)%nat.
  { apply returns_status_or_default. }
  apply returns_status_try_except_return; auto with status.
  { apply returns_status_bind; auto with status. intros _.
    apply returns_status_read. }
  intros jobs.
  apply returns_status_try_except_return; auto with status.
  { apply returns_status_bind; auto with status. intros _.
    apply returns_status_read. }
  intros remapped.
  apply returns_status_bind; auto with status. intros remaining.
  apply returns_status_bind.
  { destruct (List.length remaining =? 0)%nat; auto with status. }
  intros _. apply returns_status_read.
Qed.

Lemma run_glue_history (filepaths : list string) (mp : bool) :
  accumulates (snd (run_glue filepaths mp [])) /\
  forall v, fst (run_glue filepaths mp []) = Ok v ->
            bits_le (last (snd (run_glue filepaths mp [])) 0) v.
Proof.
  unfold run_glue. cbv zeta.
  match goal with
  | |- context [bind (assign 0) ?f []] =>
      change (bind (assign 0) f []) with (f tt [0])
  end.
  cbv beta.
  match goal with
  | |- context [?m [0]] =>
      assert (H : returns_status m); [| apply H; repeat constructor]
  end.
  repeat (apply returns_status_bind;
          [first [apply keeps_dispatch | apply keeps_join] | intros ?]).
  apply returns_status_read.
Qed.

(** C8.  In [process_data_sets] and in [run_glue] alike, the values the
    status variable takes only gain bits: each value has all the bits of
    every earlier one, and the value returned has the bits of every value
    the variable has held. *)
Theorem status_bits_only_accumulate (filepaths : list string) (mp : bool) :
  (accumulates (snd (process_data_sets filepaths [])) /\
   forall v, fst (process_data_sets filepaths []) = Ok v ->
             Forall (fun s => bits_le s v)
                    (snd (process_data_sets filepaths [])))
  /\
  (accumulates (snd (run_glue filepaths mp [])) /\
   forall v, fst (run_glue filepaths mp []) = Ok v ->
             Forall (fun s => bits_le s v) (snd (run_glue filepaths mp []))).
Proof.
  split.
  - destruct (process_data_sets_history filepaths) as [Hacc Hret].
    split; [exact Hacc |]. intros v Hv.
    apply accumulates_all_below; [exact Hacc | apply Hret, Hv].
  - destruct (run_glue_history filepaths mp) as [Hacc Hret].
    split; [exact Hacc |]. intros v Hv.
    apply accumulates_all_below; [exact Hacc | apply Hret, Hv].
Qed.

(** One group of a parallel batch whose process starts: the variable is
    bound to a child whose exit code is the worker's terminal status. *)
Lemma dispatch_parallel_started (g : group) (files : list string)
    (h : list Z) :
  spawn g = Started ->
  dispatch true g files h =
  (Ok (match files with
       | [] => None
       | _ :: _ => Some (Child (worker_status files))
       end), h).
Proof.
  intros Hs. unfold dispatch. destruct files as [| f fs]; [reflexivity |].
  simpl. rewrite Hs. reflexivity.
Qed.

(** C1 (amended).  In parallel mode, when every process starts, the
    orchestrator returns the first non-zero terminal status of the
    non-empty groups, in the order M, I, DNB, and 0 when every one of them
    is 0; an empty group has no worker and adds nothing. *)
Theorem run_glue_parallel_first_nonzero (filepaths : list string) :
  (forall g, spawn g = Started) ->
  fst (run_glue filepaths true []) =
  Ok (first_nonzero (group_statuses filepaths)).
Proof.
  intros Hs. unfold run_glue, group_statuses. cbv zeta.
  unfold bind at 1. cbn [assign app].
  unfold bind at 1. rewrite (dispatch_parallel_started _ _ _ (Hs grp_M)).
  unfold bind at 1. rewrite (dispatch_parallel_started _ _ _ (Hs grp_I)).
  unfold bind at 1. rewrite (dispatch_parallel_started _ _ _ (Hs grp_DNB)).
  cbn [flat_map app].
  destruct (group_files grp_M filepaths) as [| m ms];
    destruct (group_files grp_I filepaths) as [| i0 ii];
    destruct (group_files grp_DNB filepaths) as [| d ds];
    repeat match goal with
           | |- context [worker_status ?f] =>
               generalize (worker_status f); intro
           end;
    cbn; unfold first_nonzero, py_or; cbn;
    repeat match goal with
           | |- context [?c =? 0] =>
               destruct (Z.eqb_spec c 0); subst; cbn
           end;
    congruence.
Qed.

(** The wrapper never returns: it always leaves by SystemExit. *)
Lemma _process_data_sets_exits (files : list string) :
  exists c, _process_data_sets files = Raise (SystemExit c).
Proof.
  unfold _process_data_sets.
  destruct (fst (process_data_sets files [])) as [stat | e].
  - exists stat. reflexivity.
  - destruct e; eauto.
Qed.

(** In sequential mode the first non-empty group ends [run_glue]: the
    SystemExit of its wrapper is not a StandardError and passes through
    the handler. *)
Lemma dispatch_sequential_exits (g : group) (files : list string)
    (h : list Z) :
  files <> [] ->
  exists c, dispatch false g files h = (Raise (SystemExit c), h).
Proof.
  intros Hne. unfold dispatch.
  destruct files as [| f fs]; [congruence |]. cbn [List.length Nat.eqb].
  destruct (_process_data_sets_exits (f :: fs)) as [c Hc].
  exists c. unfold try_except, bind, lift. rewrite Hc. reflexivity.
Qed.

(** X8.  In sequential mode [run_glue] never returns when some group is
    not empty: the wrapper of the first non-empty group leaves by
    SystemExit, which no handler of [run_glue] catches. *)
Lemma run_glue_sequential_never_returns (filepaths : list string) :
  group_files grp_M filepaths <> [] \/
  group_files grp_I filepaths <> [] \/
  group_files grp_DNB filepaths <> [] ->
  exists c, fst (run_glue filepaths false []) = Raise (SystemExit c).
Proof.
  intros Hne. unfold run_glue. cbv zeta.
  unfold bind at 1. cbn [assign app].
  destruct (group_files grp_M filepaths) as [| m ms] eqn:HM.
  - unfold bind at 1. cbn [dispatch List.length Nat.eqb ret].
    destruct (group_files grp_I filepaths) as [| i0 ii] eqn:HI.
    + unfold bind at 1. cbn [dispatch List.length Nat.eqb ret].
      destruct (dispatch_sequential_exits grp_DNB
                  (group_files grp_DNB filepaths) [0]) as [c Hc].
      { destruct Hne as [H | [H | H]]; congruence. }
      exists c. unfold bind at 1. rewrite Hc. reflexivity.
    + destruct (dispatch_sequential_exits grp_I (i0 :: ii) [0]) as [c Hc];
        [discriminate |].
      exists c. unfold bind at 1. rewrite Hc. reflexivity.
  - destruct (dispatch_sequential_exits grp_M (m :: ms) [0]) as [c Hc];
      [discriminate |].
    exists c. unfold bind at 1. rewrite Hc. reflexivity.
Qed.

End Viirs2AwipsFacts.

(** Witness of C1 (amended): the batch of an M file and an I file, both
    groups failing. *)
Lemma run_glue_parallel_first_nonzero_witness :
  fst (@run_glue bitmask_status (injected plan_both_fail)
                 two_group_batch true []) =
  Ok (first_nonzero (@group_statuses bitmask_status (injected plan_both_fail)
                                     two_group_batch)).
Proof.
  apply (@run_glue_parallel_first_nonzero bitmask_status
           (injected plan_both_fail) two_group_batch).
  intros g. reflexivity.
Defined.

(** Counterexample to C1 as stated: the M group ends with status 1, the I
    group with status 2, every worker is waited on, and the orchestrator
    returns 1, which is not their bitwise OR, 3. *)
Lemma run_glue_not_bitwise_or :
  @group_statuses bitmask_status (injected plan_both_fail) two_group_batch
    = [1; 2] /\
  fst (@run_glue bitmask_status (injected plan_both_fail)
                 two_group_batch true []) = Ok 1 /\
  fst (@run_glue bitmask_status (injected plan_both_fail)
                 two_group_batch true []) <>
  Ok (bitwise_or_all (@group_statuses bitmask_status
                        (injected plan_both_fail) two_group_batch)).
Proof.
  split; [vm_compute; reflexivity |].
  split; [vm_compute; reflexivity |].
  vm_compute. discriminate.
Qed.

(** C2, at the failing input: the M group succeeds and the I group fails in
    the frontend.  In parallel mode the orchestrator returns 1.  In
    sequential mode the call of the wrapper for the M group leaves by
    SystemExit with status 0: the I group is never run and [run_glue] does
    not return. *)
Lemma run_glue_sequential_exits_early :
  fst (@run_glue bitmask_status (injected plan_I_fails)
                 two_group_batch true []) = Ok 1 /\
  fst (@run_glue bitmask_status (injected plan_I_fails)
                 two_group_batch false []) = Raise (SystemExit 0).
Proof. split; vm_compute; reflexivity. Qed.

(** ** The swath normalizer *)

Lemma Qltb_lt (a b : Q) : Qltb a b = true <-> (a < b)%Q.
Proof.
  unfold Qltb. rewrite negb_true_iff. split.
  - intros H. apply Qnot_le_lt. intros Hle.
    apply Qle_bool_iff in Hle. congruence.
  - intros H. destruct (Qle_bool b a) eqn:E; [| reflexivity].
    apply Qle_bool_iff in E. exfalso. exact (Qlt_not_le _ _ H E).
Qed.


(** With the sentinel -999 the test of [mask_missing] is the open
    interval. *)
Lemma near_missing_999 (mv x : Q) :
  (mv == -999 # 1)%Q -> (near_missing mv x = true <-> strictly_near_999 x).
Proof.
  intros Hmv. unfold near_missing, strictly_near_999.
  rewrite Qltb_lt, Qabs_Qlt_condition, Hmv. split; intros [H1 H2]; split; lra.
Qed.

Section NormalizerFacts.
Context {SE : SwathEnv}.

(** What the masking step returns on a non-empty array with a sentinel. *)
Lemma mask_missing_sentinel (var_name : string) (h5_var : h5var)
    (a : ndarray) (mv : Q) (rest : list Q) :
  missing_value h5_var = Some (mv :: rest) ->
  data a <> [] ->
  fst (mask_missing var_name h5_var a) =
  Ok {| dt := dt a; shape := shape a;
        data := map (fun x => if near_missing mv x
                              then DEFAULT_FILL_VALUE else x) (data a);
        mask := Some (map (near_missing mv) (data a)) |}.
Proof.
  intros Hmv Hne. unfold mask_missing. rewrite Hmv.
  destruct (data a) as [| x t] eqn:Hd; [congruence |]. reflexivity.
Qed.

Lemma mask_missing_no_sentinel (var_name : string) (h5_var : h5var)
    (a : ndarray) :
  missing_value h5_var = None ->
  mask_missing var_name h5_var a =
  (Ok {| dt := dt a; shape := shape a; data := data a;
         mask := Some (map (fun _ => false) (data a)) |},
   [Log WARNING "no missing_value attribute in %s" [AStr var_name]]).
Proof. intros Hmv. unfold mask_missing. rewrite Hmv. reflexivity. Qed.

Lemma _swath_from_var_steps (var_name : string) (h5_var : h5var)
    (tool : option (h5var -> W ndarray)) (a : ndarray) (e : list event) :
  (a0 <~ select h5_var tool ;; roll var_name a0)%W = (Ok a, e) ->
  _swath_from_var var_name h5_var tool =
  (fst (mask_missing var_name h5_var a),
   (e ++ snd (mask_missing var_name h5_var a))%list).
Proof.
  unfold _swath_from_var, wbind. intros H.
  destruct (select h5_var tool) as [[a0 | x] e0]; [| discriminate].
  destruct (roll var_name a0) as [[a1 | x] e1]; [| discriminate].
  injection H as <- <-.
  destruct (mask_missing var_name h5_var a1) as [r e2].
  simpl. rewrite app_assoc. reflexivity.
Qed.

(** C4 (amended).  With the sentinel -999 declared, [_swath_from_var]
    masks exactly the elements that lie strictly between -999.5 and
    -998.5 and puts the fill value in their place; every other element,
    the two end points included, is neither masked nor changed.  With no
    sentinel declared it returns the array with nothing masked and logs a
    warning. *)
Theorem swath_from_var_masks_open_interval (var_name : string)
    (h5_var : h5var) (tool : option (h5var -> W ndarray))
    (a : ndarray) (e : list event) :
  (a0 <~ select h5_var tool ;; roll var_name a0)%W = (Ok a, e) ->
  (forall mv rest,
      missing_value h5_var = Some (mv :: rest) ->
      (mv == -999 # 1)%Q ->
      data a <> [] ->
      exists out,
        fst (_swath_from_var var_name h5_var tool) = Ok out /\
        shape out = shape a /\
        List.length (data out) = List.length (data a) /\
        forall i x, nth_error (data a) i = Some x ->
          (strictly_near_999 x ->
             masked_at out i = true /\
             nth_error (data out) i = Some DEFAULT_FILL_VALUE) /\
          (~ strictly_near_999 x ->
             masked_at out i = false /\
             nth_error (data out) i = Some x))
  /\
  (missing_value h5_var = None ->
   exists out,
     fst (_swath_from_var var_name h5_var tool) = Ok out /\
     shape out = shape a /\
     data out = data a /\
     (forall i, masked_at out i = false) /\
     In (Log WARNING "no missing_value attribute in %s" [AStr var_name])
        (snd (_swath_from_var var_name h5_var tool))).
Proof.
  intros Hsteps. rewrite (_swath_from_var_steps _ _ _ _ _ Hsteps).
  split.
  - intros mv rest Hmv H999 Hne. cbn [fst].
    rewrite (mask_missing_sentinel _ _ _ _ _ Hmv Hne).
    eexists. split; [reflexivity |]. cbn [shape data].
    split; [reflexivity |]. split; [apply length_map |].
    intros i x Hx. unfold masked_at. cbn [mask].
    pose proof (near_missing_999 mv x H999) as Hiff.
    assert (Hm : nth i (map (near_missing mv) (data a)) false
                 = near_missing mv x).
    { apply nth_error_nth. rewrite nth_error_map, Hx. reflexivity. }
    rewrite Hm, nth_error_map, Hx. cbn [option_map].
    split; intros Hin.
    + apply Hiff in Hin. rewrite Hin. split; reflexivity.
    + destruct (near_missing mv x) eqn:E.
      * exfalso. apply Hin, Hiff. reflexivity.
      * split; reflexivity.
  - intros Hmv. rewrite (mask_missing_no_sentinel _ _ _ Hmv). cbn [fst snd].
    eexists. split; [reflexivity |]. cbn [shape data].
    repeat split.
    + intros i. unfold masked_at. cbn [mask].
      destruct (nth_error (map (fun _ : Q => false) (data a)) i) eqn:E.
      * rewrite (nth_error_nth _ _ _ E).
        rewrite nth_error_map in E.
        destruct (nth_error (data a) i); cbn in E; congruence.
      * apply nth_overflow. apply nth_error_None. exact E.
    + apply in_or_app. right. left. reflexivity.
Qed.

End NormalizerFacts.

(** Witness of C4 (amended): a row with one value strictly inside the
    interval and one far from it, read whole. *)
Lemma swath_from_var_masks_open_interval_witness :
  exists out,
    fst (@_swath_from_var sample_env "TSurf" inside_outside_var None)
      = Ok out /\
    shape out = [1; 2]%nat /\
    List.length (data out) = 2%nat /\
    forall i x, nth_error (h5_data inside_outside_var) i = Some x ->
      (strictly_near_999 x ->
         masked_at out i = true /\
         nth_error (data out) i = Some (@DEFAULT_FILL_VALUE sample_env)) /\
      (~ strictly_near_999 x ->
         masked_at out i = false /\
         nth_error (data out) i = Some x).
Proof.
  apply (proj1 (@swath_from_var_masks_open_interval sample_env "TSurf"
                  inside_outside_var None (h5_all inside_outside_var) []
                  eq_refl)
               (-999 # 1)%Q [] eq_refl).
  - reflexivity.
  - discriminate.
Defined.

(** Counterexample to C4 as stated: -999.5 and -998.5 lie in the closed
    interval, and [_swath_from_var] leaves both unmasked and unchanged. *)
Lemma end_points_not_masked :
  Forall within_closed_999 (h5_data end_points_var) /\
  exists out,
    fst (@_swath_from_var sample_env "TSurf" end_points_var None) = Ok out /\
    mask out = Some [false; false] /\
    data out = h5_data end_points_var.
Proof.
  split.
  - repeat constructor; unfold Qle; simpl; lia.
  - eexists. split; [vm_compute; reflexivity |]. split; reflexivity.
Qed.

(** ** The flat-binary writer *)

Lemma dtype_eqb_eq (a b : dtype) : dtype_eqb a b = true <-> a = b.
Proof. destruct a, b; simpl; split; congruence. Qed.

Section DictFacts.
Context {K V : Type} (eqb : K -> K -> bool).
Hypothesis eqb_eq : forall a b, eqb a b = true <-> a = b.

Lemma dict_get_In (d : list (K * V)) (k : K) (v : V) :
  dict_get eqb d k = Some v -> In (k, v) d.
Proof.
  induction d as [| [k' v'] t IH]; simpl; [discriminate |].
  destruct (eqb k k') eqn:E.
  - apply eqb_eq in E. intros [= ->]. subst. left; reflexivity.
  - intros H. right. apply IH, H.
Qed.

Lemma dict_set_In (d : list (K * V)) (k : K) (v : V) (kv : K * V) :
  In kv (dict_set eqb d k v) -> kv = (k, v) \/ In kv d.
Proof.
  induction d as [| [k' v'] t IH]; simpl.
  - intros [<- | []]. left; reflexivity.
  - destruct (eqb k k'); simpl.
    + intros [<- | H]; [left; reflexivity | right; right; exact H].
    + intros [<- | H]; [right; left; reflexivity |].
      destruct (IH H) as [-> | H']; [left | right; right]; auto.
Qed.

Lemma dict_of_In (pairs : list (K * V)) (kv : K * V) :
  In kv (dict_of eqb pairs) -> In kv pairs.
Proof.
  unfold dict_of.
  assert (G : forall acc,
             In kv (fold_left (fun d p => dict_set eqb d (fst p) (snd p))
                              pairs acc) ->
             In kv acc \/ In kv pairs).
  { induction pairs as [| [k v] t IH]; simpl; intros acc H; [left; exact H |].
    destruct (IH _ H) as [H1 | H1].
    - destruct (dict_set_In _ _ _ _ H1) as [-> | H2]; auto.
    - auto. }
  intros H. destruct (G [] H) as [[] | H']; exact H'.
Qed.

(** A key that is set is found afterwards. *)
Lemma dict_get_set_same (d : list (K * V)) (k : K) (v : V) :
  dict_get eqb (dict_set eqb d k v) k = Some v.
Proof.
  assert (Hkk : eqb k k = true) by (apply eqb_eq; reflexivity).
  induction d as [| [k' v'] t IH]; simpl.
  - rewrite Hkk. reflexivity.
  - destruct (eqb k k') eqn:E; simpl.
    + rewrite Hkk. reflexivity.
    + rewrite E. exact IH.
Qed.


End DictFacts.

Section WriterFacts.
Context {SE : SwathEnv}.

(** The suffix the writer finds for a dtype is a name the table of
    polar2grid.core.fbf gives to that very dtype. *)
Lemma nptype_to_suffix_sound (d : dtype) (s : string) :
  dict_get dtype_eqb nptype_to_suffix d = Some s -> In (s, d) str_to_dtype.
Proof.
  intros H. apply (dict_get_In dtype_eqb dtype_eqb_eq) in H.
  apply dict_of_In in H. apply in_map_iff in H.
  destruct H as [[s' d'] [[= <- <-] Hin]]. exact Hin.
Qed.

(** X21.  An array whose rank is not 2 is not written: the writer returns
    None and leaves one warning and no file. *)
Lemma _write_array_to_fbf_rejects (name : string) (a : ndarray) :
  List.length (shape a) <> 2%nat ->
  _write_array_to_fbf name a =
  (Ok None,
   [Log WARNING "data %r shape is %r, ignoring" [AStr name; AShape (shape a)]]).
Proof.
  intros Hrank. unfold _write_array_to_fbf.
  destruct (shape a) as [| r [| c [| x t]]]; simpl in *;
    try reflexivity; congruence.
Qed.


(** A plain array of rank 2: the suffix is looked up for the dtype the
    array has on entry, and the data is written as 4-byte floats all the
    same. *)
Lemma _write_array_to_fbf_plain (name : string) (a : ndarray)
    (rows cols : nat) (dts : string) :
  shape a = [rows; cols] ->
  mask a = None ->
  dict_get dtype_eqb nptype_to_suffix (dt a) = Some dts ->
  let fn := name ++ "." ++ dts ++ "." ++ str_of_int (Z.of_nat cols)
                 ++ "." ++ str_of_int (Z.of_nat rows) in
  _write_array_to_fbf name a =
  (Ok (Some fn),
   [Log DEBUG "writing to %s..." [AStr fn];
    FileWritten fn float32 (data a)]).
Proof.
  intros Hs Hm Hd fn. unfold _write_array_to_fbf.
  rewrite Hs, Hm. cbn -[str_of_int dict_get nptype_to_suffix append].
  rewrite Hd. reflexivity.
Qed.

(** Whatever the suffix table is: for a plain array of rank 2 the writer
    either fails on the lookup, or names the file after an entry the table
    has for the dtype of the array as given, and writes 4-byte floats. *)
Lemma _write_array_to_fbf_plain_suffix (name : string) (a : ndarray)
    (rows cols : nat) :
  shape a = [rows; cols] ->
  mask a = None ->
  _write_array_to_fbf name a = (Raise KeyError, []) \/
  exists dts,
    In (dts, dt a) str_to_dtype /\
    let fn := name ++ "." ++ dts ++ "." ++ str_of_int (Z.of_nat cols)
                   ++ "." ++ str_of_int (Z.of_nat rows) in
    _write_array_to_fbf name a =
    (Ok (Some fn),
     [Log DEBUG "writing to %s..." [AStr fn];
      FileWritten fn float32 (data a)]).
Proof.
  intros Hs Hm.
  destruct (dict_get dtype_eqb nptype_to_suffix (dt a)) as [dts |] eqn:Hd.
  - right. exists dts. split; [apply nptype_to_suffix_sound, Hd |].
    apply _write_array_to_fbf_plain; assumption.
  - left. unfold _write_array_to_fbf. rewrite Hs, Hm.
    cbn -[dict_get nptype_to_suffix]. rewrite Hd. reflexivity.
Qed.

End WriterFacts.


(** ** The layer-selection tool *)





(** ** The manifest builder *)

Lemma manifest_rows_var (plev : list Q)
    (item : string * (dkind * bkind * option (list Q)))
    (e : string * manifest_entry) :
  In e (manifest_rows plev item) -> h5_var_name (snd e) = fst item.
Proof.
  destruct item as [var [[dk bk] ps]]. simpl.
  destruct ps as [[| p levels] |].
  - intros [<- | []]. reflexivity.
  - intros H. apply in_map_iff in H. destruct H as [q [<- _]]. reflexivity.
  - intros [<- | []]. reflexivity.
Qed.

Lemma filter_none {A} (f : A -> bool) (l : list A) :
  (forall x, In x l -> f x = false) -> filter f l = [].
Proof.
  induction l as [| a t IH]; intros H; [reflexivity |]. simpl.
  rewrite (H a (or_introl eq_refl)). apply IH.
  intros x Hx. apply H. right; exact Hx.
Qed.

(** C7.  For a variable of the guidebook with declared pressure levels the
    manifest holds one entry per level, named variable_pressure followed
    by mb, in the order of the levels; for a variable of the guidebook
    with no levels it holds one entry, named as the variable, with no
    tool; for a variable that is not in the guidebook it holds none. *)
Theorem var_manifest_entries (sat : satellite) (inst : instrument)
    (plev : list Q) :
  (forall var dk bk levels,
      In (var, (dk, bk, Some levels)) VAR_TABLE ->
      map fst (entries_for var (_var_manifest sat inst plev)) =
      map (fun p => var ++ "_" ++ str_of_int (int_of_float p) ++ "mb")
          levels /\
      List.length (entries_for var (_var_manifest sat inst plev)) =
      List.length levels)
  /\
  (forall var dk bk,
      In (var, (dk, bk, None)) VAR_TABLE ->
      exists e,
        entries_for var (_var_manifest sat inst plev) = [(var, e)] /\
        tool e = None)
  /\
  (forall var,
      ~ In var (map fst VAR_TABLE) ->
      entries_for var (_var_manifest sat inst plev) = []).
Proof.
  split; [| split].
  - intros var dk bk levels Hin. simpl in Hin.
    repeat (destruct Hin as [Hin | Hin]; [try discriminate Hin |]).
    all: first [ contradiction
               | injection Hin as <- <- <- <-; split; reflexivity ].
  - intros var dk bk Hin. simpl in Hin.
    repeat (destruct Hin as [Hin | Hin]; [try discriminate Hin |]).
    all: first [ contradiction
               | injection Hin as <- <- <-; eexists; split; reflexivity ].
  - intros var Hnot. apply filter_none. intros e He.
    unfold _var_manifest in He. apply in_flat_map in He.
    destruct He as [item [Hitem He]].
    apply manifest_rows_var in He.
    destruct (String.eqb_spec (h5_var_name (snd e)) var) as [Heq | _];
      [| reflexivity].
    exfalso. apply Hnot. rewrite <- Heq, He. apply in_map, Hitem.
Qed.

(** Witness of C7: Dewpnt, declared with the levels 500 and 900. *)
Lemma var_manifest_entries_witness :
  map fst (entries_for "Dewpnt" (_var_manifest SAT_NPP INST_CRIS [])) =
  ["Dewpnt_500mb"; "Dewpnt_900mb"] /\
  List.length (entries_for "Dewpnt" (_var_manifest SAT_NPP INST_CRIS [])) =
  2%nat.
Proof.
  apply (proj1 (var_manifest_entries SAT_NPP INST_CRIS [])
               "Dewpnt" DKIND_TEMPERATURE BKIND_DEWPT
               DEFAULT_LAYER_PRESSURES).
  simpl. tauto.
Defined.

(** ** The per-variable extraction helper *)

Section GobbleFacts.
Context {SE : SwathEnv}.

(** C9 (amended).  With upsampling off, [_gobble] writes the object
    [swath] as it is after the filter has run, and does not use the value
    the filter returns.  So a filter that returns normally and leaves its
    argument as it was has no effect on what is logged, written and
    returned. *)
Theorem gobble_ignores_pure_filter (h5s : list h5file)
    (name var_name : string) (tool : option (h5var -> W ndarray))
    (f : filter_fn) :
  (forall r h, (r < List.length h)%nat ->
     exists r' h', f r h = Ok (r', h') /\ deref h' r = deref h r) ->
  _gobble h5s name var_name tool false (Some f) =
  _gobble h5s name var_name tool false None.
Proof.
  intros Hpure. unfold _gobble, wbind, wlift.
  destruct (wmap _ h5s) as [[sections | e] ev]; [| reflexivity].
  destruct (concatenate sections) as [joined | e]; [| reflexivity].
  cbn [alloc List.length app].
  destruct (Hpure 0%nat [joined]) as [r' [h' [Hf Hsame]]]; [simpl; lia |].
  rewrite Hf, Hsame. reflexivity.
Qed.

End GobbleFacts.

(** Witness of C9 (amended): the copying filter on the longitude of the
    sample file. *)
Lemma gobble_ignores_pure_filter_witness :
  @_gobble sample_env (@open_all sample_env [iasi_path])
           "swath_longitude" "Longitude" None false (Some copying_filter) =
  @_gobble sample_env (@open_all sample_env [iasi_path])
           "swath_longitude" "Longitude" None false None.
Proof.
  apply (@gobble_ignores_pure_filter sample_env).
  intros r h Hr. exists (List.length h), (h ++ [deref h r])%list.
  split; [reflexivity |]. unfold deref. apply app_nth1. exact Hr.
Defined.

(** Counterexample to C9 as stated: the longitude row 170, -170 with
    upsampling off.  Without a filter the file holds 170, -170; with the
    longitude fix, which modifies the array it is given, the file holds
    170, 190. *)
Lemma gobble_in_place_filter_changes_output :
  snd (@_gobble sample_env (@open_all sample_env [iasi_path])
                "swath_longitude" "Longitude" None false None)
  = [Log DEBUG "missing value for %s is %s"
         [AStr "Longitude"; ANum (-999 # 1)];
     Log DEBUG "min, max = %s, %s" [];
     Log DEBUG "found mask for %s" [AStr "swath_longitude"];
     Log DEBUG "writing to %s..." [AStr "swath_longitude.real4.2.1"];
     FileWritten "swath_longitude.real4.2.1" float32
                 [(170 # 1)%Q; (-170 # 1)%Q]] /\
  snd (@_gobble sample_env (@open_all sample_env [iasi_path])
                "swath_longitude" "Longitude" None false
                (Some _make_longitude_monotonic))
  = [Log DEBUG "missing value for %s is %s"
         [AStr "Longitude"; ANum (-999 # 1)];
     Log DEBUG "min, max = %s, %s" [];
     Log DEBUG "found mask for %s" [AStr "swath_longitude"];
     Log DEBUG "writing to %s..." [AStr "swath_longitude.real4.2.1"];
     FileWritten "swath_longitude.real4.2.1" float32
                 [(170 # 1)%Q; (190 # 1)%Q]] /\
  @_gobble sample_env (@open_all sample_env [iasi_path])
           "swath_longitude" "Longitude" None false
           (Some _make_longitude_monotonic)
  <> @_gobble sample_env (@open_all sample_env [iasi_path])
              "swath_longitude" "Longitude" None false None.
Proof.
  split; [vm_compute; reflexivity |].
  split; [vm_compute; reflexivity |].
  vm_compute. discriminate.
Qed.

(** ** The filename classifier *)

Section ClassifierFacts.
Context {SE : SwathEnv}.

Lemma _filename_info_unknown (pathname : string) (mgd : groupdict) :
  RE_DRRTV_match (basename pathname) = Some mgd ->
  dict_get sat_inst_eqb SAT_INST_TABLE (g_sat mgd, g_inst mgd) = None ->
  dict_get sat_inst_eqb SAT_INST_TABLE (None, g_inst mgd) = None ->
  exists e, _filename_info pathname = (Raise e, []).
Proof.
  intros Hm H1 H2. unfold _filename_info. rewrite Hm.
  unfold wbind, wlift.
  destruct (strptime _ _) as [when | e]; [| exists e; reflexivity].
  rewrite H1, H2. exists TypeError. reflexivity.
Qed.

Lemma sort_files_from_raises (pathname : string) (e : exn)
    (before after : list string) :
  fst (_filename_info pathname) = Raise e ->
  forall ret, exists e',
    fst (sort_files_from ret (before ++ pathname :: after)) = Raise e'.
Proof.
  intros Hraise. induction before as [| pn rest IH]; intros ret; simpl.
  - unfold wbind. destruct (_filename_info pathname) as [[fi | x] ev];
      simpl in Hraise; [discriminate |].
    exists x. reflexivity.
  - unfold wbind. destruct (_filename_info pn) as [[fi | x] ev].
    + destruct fi as [fi |].
      * match goal with
        | |- context [sort_files_from ?r _] => destruct (IH r) as [e' He']
        end.
        destruct (sort_files_from _ (rest ++ pathname :: after)) as [r l].
        simpl in He'. subst r. exists e'. reflexivity.
      * destruct (IH ret) as [e' He'].
        destruct (sort_files_from ret (rest ++ pathname :: after)) as [r l].
        simpl in He'. subst r. exists e'. reflexivity.
    + exists x. reflexivity.
Qed.

(** C10.  When the basename of a path matches the grammar and the table
    has no row for its satellite and instrument, nor for the instrument
    with no satellite, [_filename_info] raises an exception and does not
    return None; [sort_files_by_nav_uid] raises for every list of paths
    that holds such a path. *)
Theorem filename_info_unknown_instrument_raises (pathname : string)
    (mgd : groupdict) :
  RE_DRRTV_match (basename pathname) = Some mgd ->
  dict_get sat_inst_eqb SAT_INST_TABLE (g_sat mgd, g_inst mgd) = None ->
  dict_get sat_inst_eqb SAT_INST_TABLE (None, g_inst mgd) = None ->
  (exists e, fst (_filename_info pathname) = Raise e) /\
  fst (_filename_info pathname) <> Ok None /\
  forall before after, exists e,
    fst (sort_files_by_nav_uid (before ++ pathname :: after)) = Raise e.
Proof.
  intros Hm H1 H2.
  destruct (_filename_info_unknown pathname mgd Hm H1 H2) as [e He].
  split; [| split].
  - exists e. rewrite He. reflexivity.
  - rewrite He. discriminate.
  - intros before after. unfold sort_files_by_nav_uid.
    apply sort_files_from_raises with (e := e). rewrite He. reflexivity.
Qed.

End ClassifierFacts.

(** Witness of C10: a MODIS file name. *)
Lemma filename_info_unknown_instrument_raises_witness :
  (exists e, fst (@_filename_info sample_env modis_path) = Raise e) /\
  fst (@_filename_info sample_env modis_path) <> Ok None /\
  forall before after, exists e,
    fst (@sort_files_by_nav_uid sample_env (before ++ modis_path :: after))
      = Raise e.
Proof.
  apply (@filename_info_unknown_instrument_raises sample_env modis_path
           {| g_inst := "MODIS"; g_date := "20130310";
              g_start_time := "152624"; g_sat := None |});
    reflexivity.
Defined.

(** ** The extraction coordinator *)








Section CoordinatorFacts.
Context {SE : SwathEnv}.










Lemma wbind_Ok_inv {A B} (m : W A) (f : A -> W B) (b : B)
    (ev : list event) :
  wbind m f = (Ok b, ev) ->
  exists a e1 e2, m = (Ok a, e1) /\ f a = (Ok b, e2) /\ ev = (e1 ++ e2)%list.
Proof.
  unfold wbind. destruct m as [[a | e] e1]; [| discriminate].
  destruct (f a) as [r e2] eqn:Hf. intros [= -> <-].
  exists a, e1, e2. auto.
Qed.

(** The setup ends with the extraction of the latitude and then of the
    longitude, both returned, and their file names are in the metadata. *)
Lemma swath_setup_geolocation_last (pns : list string) (h5s : list h5file)
    (nfo : swath_meta) (manifest : list (string * manifest_entry))
    (ev : list event) :
  swath_setup pns = (Ok (Some (h5s, nfo, manifest)), ev) ->
  exists before lat e_lat lon e_lon,
    ev = (before ++ e_lat ++ e_lon)%list /\
    _gobble h5s "swath_latitude" "Latitude" None
            DEFAULT_EXPLODE_SAMPLING None = (Ok lat, e_lat) /\
    _gobble h5s "swath_longitude" "Longitude" None
            DEFAULT_EXPLODE_SAMPLING None = (Ok lon, e_lon) /\
    fbf_lat nfo = lat /\ fbf_lon nfo = lon.
Proof.
  unfold swath_setup. intros H.
  apply wbind_Ok_inv in H. destruct H as (bad & e1 & e2 & _ & H & ->).
  apply wbind_Ok_inv in H. destruct H as (u & e3 & e4 & _ & H & ->).
  cbv zeta in H. destruct (open_all _) as [| h5 rest].
  { apply wbind_Ok_inv in H. destruct H as (? & ? & ? & _ & H & _).
    discriminate H. }
  apply wbind_Ok_inv in H. destruct H as (nfo0 & e5 & e6 & _ & H & ->).
  apply wbind_Ok_inv in H. destruct H as (u' & e7 & e8 & _ & H & ->).
  apply wbind_Ok_inv in H. destruct H as (lat & e9 & e10 & Hlat & H & ->).
  apply wbind_Ok_inv in H. destruct H as (lon & e11 & e12 & Hlon & H & ->).
  injection H as <- <- <- <-.
  exists (e1 ++ e3 ++ e5 ++ e7)%list, lat, e9, lon, e11.
  split; [| auto].
  rewrite app_nil_r, <- !app_assoc. reflexivity.
Qed.

Lemma bkind_eqb_eq (a b : bkind) : bkind_eqb a b = true <-> a = b.
Proof. destruct a, b; simpl; split; congruence. Qed.

Lemma band_key_eqb_eq (a b : band_key) : band_key_eqb a b = true <-> a = b.
Proof.
  destruct a as [k1 o1], b as [k2 o2]. unfold band_key_eqb. simpl.
  rewrite andb_true_iff, bkind_eqb_eq.
  destruct o1 as [s1 |], o2 as [s2 |]; simpl;
    rewrite ?String.eqb_eq; split;
    try (intros [-> H]; congruence);
    try (intros [= -> ->]; auto);
    try (intros [= ->]; auto).
Qed.








End CoordinatorFacts.



(* ================================================================== *)
(** * Part III.  Further properties of the code                        *)
(* ================================================================== *)

(** ** viirs2awips.py: the stages of one group *)

Section PipelineFacts.
Context {SC : StatusCodes} {CO : Collaborators}.



Lemma backend_bands_kept (g : string) (bs kept : list string) :
  backend_bands g bs = Ok kept ->
  forall b, In b kept -> In b bs /\ exists u, create_product g b = Ok u.
Proof.
  revert kept. induction bs as [| b0 t IH]; simpl; intros kept H b Hin.
  - injection H as <-. destruct Hin.
  - destruct (create_product g b0) as [u | x] eqn:Hp.
    + destruct (backend_bands g t) as [k |]; [| discriminate].
      injection H as <-. destruct Hin as [<- | Hin].
      * split; [left; reflexivity | exists u; exact Hp].
      * destruct (IH k eq_refl b Hin) as [H1 H2]. split; [right |]; assumption.
    + destruct (is_StandardError x); [| discriminate].
      destruct (IH kept H b Hin) as [H1 H2]. split; [right |]; assumption.
Qed.


(** X2.  What the backend loops return holds no grid without a band, and
    every band left in it is a band of that grid for which the product was
    made. *)
Theorem backend_grids_kept (jobs kept : remapped_jobs) :
  backend_grids jobs = Ok kept ->
  forall g bs', In (g, bs') kept ->
    bs' <> [] /\
    exists bs, In (g, bs) jobs /\
      forall b, In b bs' -> In b bs /\ exists u, create_product g b = Ok u.
Proof.
  revert kept. induction jobs as [| [g0 bs0] t IH]; simpl; intros kept H g bs' Hin.
  - injection H as <-. destruct Hin.
  - destruct (backend_bands g0 bs0) as [k |] eqn:Hb; [| discriminate].
    destruct (backend_grids t) as [rest |]; [| discriminate].
    assert (Hrest : In (g, bs') rest ->
              bs' <> [] /\
              exists bs, In (g, bs) ((g0, bs0) :: t) /\
                forall b, In b bs' ->
                  In b bs /\ exists u, create_product g b = Ok u).
    { intros Hr. destruct (IH rest eq_refl g bs' Hr) as [Hne [bs [Hbs Hall]]].
      split; [exact Hne |]. exists bs. split; [right; exact Hbs | exact Hall]. }
    destruct k as [| b1 k'].
    + injection H as <-. apply Hrest, Hin.
    + cbn in H. injection H as <-. destruct Hin as [[= <- <-] | Hin].
      * split; [discriminate |]. exists bs0.
        split; [left; reflexivity |]. exact (backend_bands_kept _ _ _ Hb).
      * apply Hrest, Hin.
Qed.

Lemma backend_bands_total (g : string) (bs : list string) :
  (forall g' b' e, create_product g' b' = Raise e ->
                   is_StandardError e = true) ->
  exists kept,
    backend_bands g bs = Ok kept /\
    forall b u, In b bs -> create_product g b = Ok u -> In b kept.
Proof.
  intros Hstd. induction bs as [| b0 t IH]; simpl.
  - exists []. split; [reflexivity | intros ? ? []].
  - destruct IH as [k [Hk Hall]]. rewrite Hk.
    destruct (create_product g b0) as [u0 | x] eqn:Hp.
    + exists (b0 :: k). split; [reflexivity |].
      intros b u [<- | Hin] Hb; [left; reflexivity | right; eauto].
    + rewrite (Hstd _ _ _ Hp). exists k. split; [reflexivity |].
      intros b u [<- | Hin] Hb; [congruence | eauto].
Qed.

Lemma backend_grids_total (jobs : remapped_jobs) :
  (forall g' b' e, create_product g' b' = Raise e ->
                   is_StandardError e = true) ->
  exists kept,
    backend_grids jobs = Ok kept /\
    forall g bs b u, In (g, bs) jobs -> In b bs ->
                     create_product g b = Ok u -> kept <> [].
Proof.
  intros Hstd. induction jobs as [| [g0 bs0] t IH]; simpl.
  - exists []. split; [reflexivity | intros ? ? ? ? []].
  - destruct (backend_bands_total g0 bs0 Hstd) as [k [Hk Hin]].
    destruct IH as [rest [Hrest Hne]]. rewrite Hk, Hrest.
    destruct k as [| b1 k']; cbn.
    + exists rest. split; [reflexivity |].
      intros g bs b u [[= <- <-] | Ht] Hb Hp.
      * destruct (Hin b u Hb Hp).
      * eauto.
    + eexists. split; [reflexivity | discriminate].
Qed.

(** X3.  When the three first stages succeed and the backend makes at
    least one product, the status is success, however many other products
    failed with a StandardError: a partial failure of the backend does not
    show in the status. *)
Theorem process_data_sets_partial_backend (filepaths : list string)
    (md : meta_data) (jobs : grid_jobs) (remapped : remapped_jobs)
    (g : string) (bs : list string) (b : string) (u : unit) :
  make_swaths filepaths = Ok md ->
  has_required_keys md = true ->
  md_bands md <> [] ->
  create_grid_jobs md = Ok jobs ->
  remap_bands md jobs = Ok remapped ->
  In (g, bs) remapped -> In b bs -> create_product g b = Ok u ->
  (forall g' b' e, create_product g' b' = Raise e ->
                   is_StandardError e = true) ->
  fst (process_data_sets filepaths []) = Ok STATUS_SUCCESS.
Proof.
  intros Hf Hk Hbands Hg Hr Hin Hb Hp Hstd.
  unfold process_data_sets.
  unfold try_except_return, bind, lift, ior_assign, assign, read, ret, bind.
  cbn [app last fst snd]. rewrite Hf, Hk.
  destruct (md_bands md) as [| x t]; [congruence |]. cbn [List.length Nat.eqb].
  rewrite Hg, Hr.
  destruct (backend_grids_total remapped Hstd) as [kept [Hkept Hne]].
  rewrite Hkept.
  destruct kept as [| k0 k']; [destruct (Hne g bs b u Hin Hb Hp eq_refl) |].
  reflexivity.
Qed.

End PipelineFacts.

(** Witness of X2: the two files in one group, the backend failing for the
    I band. *)
Lemma backend_grids_kept_witness :
  ["/data/SVM01_npp_d20130117.h5"] <> [] /\
  exists bs, In ("grid211", bs) [("grid211", two_group_batch)] /\
    forall b, In b ["/data/SVM01_npp_d20130117.h5"] ->
      In b bs /\
      exists u, @create_product (injected plan_backend_I) "grid211" b = Ok u.
Proof.
  apply (@backend_grids_kept (injected plan_backend_I)
           [("grid211", two_group_batch)]
           [("grid211", ["/data/SVM01_npp_d20130117.h5"])] eq_refl
           "grid211" ["/data/SVM01_npp_d20130117.h5"]).
  left. reflexivity.
Defined.

(** Witness of X3: the same run; the status is success although the
    product of the I band failed. *)
Lemma process_data_sets_partial_backend_witness :
  fst (@process_data_sets bitmask_status (injected plan_backend_I)
         two_group_batch []) = Ok STATUS_SUCCESS.
Proof.
  apply (@process_data_sets_partial_backend bitmask_status
           (injected plan_backend_I) two_group_batch
           {| has_required_keys := true; md_bands := two_group_batch |}
           ["grid211"] [("grid211", two_group_batch)]
           "grid211" two_group_batch "/data/SVM01_npp_d20130117.h5" tt);
    try reflexivity.
  - discriminate.
  - left; reflexivity.
  - left; reflexivity.
  - intros g' b' e. unfold injected, create_product.
    destruct (fails_at plan_backend_I Backend [b']); [| discriminate].
    intros [= <-]. reflexivity.
Defined.

(** ** viirs2awips.py: the groups of a batch *)

Lemma In_insert_sorted (x y : string) (l : list string) :
  In y (insert_sorted x l) <-> y = x \/ In y l.
Proof.
  induction l as [| a t IH]; simpl.
  - intuition congruence.
  - destruct (String.leb x a); simpl; rewrite ?IH; intuition congruence.
Qed.

Lemma In_sorted (y : string) (l : list string) : In y (sorted l) <-> In y l.
Proof.
  unfold sorted. induction l as [| a t IH]; simpl; [tauto |].
  rewrite In_insert_sorted, IH. intuition congruence.
Qed.

Lemma In_insert_uniq (x y : string) (l : list string) :
  In y (insert_uniq x l) <-> y = x \/ In y l.
Proof.
  induction l as [| a t IH]; simpl.
  - intuition congruence.
  - destruct (String.compare x a) eqn:E; simpl; rewrite ?IH;
      try (intuition congruence).
    apply String.compare_eq_iff in E. subst a. intuition congruence.
Qed.

Lemma In_sorted_set (y : string) (l : list string) :
  In y (sorted_set l) <-> In y l.
Proof.
  unfold sorted_set. induction l as [| a t IH]; simpl; [tauto |].
  rewrite In_insert_uniq, IH. intuition congruence.
Qed.

Lemma compare_lt_trans (a b c : string) :
  String.compare a b = Lt -> String.compare b c = Lt ->
  String.compare a c = Lt.
Proof.
  intros H1 H2. apply String_as_OT.cmp_lt.
  eapply String_as_OT.lt_trans; apply String_as_OT.cmp_lt; eassumption.
Qed.

Lemma compare_gt_lt (a b : string) :
  String.compare a b = Gt -> String.compare b a = Lt.
Proof.
  intros H. rewrite String.compare_antisym, H. reflexivity.
Qed.

Lemma insert_uniq_sorted (x : string) (l : list string) :
  strictly_sorted l -> strictly_sorted (insert_uniq x l).
Proof.
  unfold strictly_sorted.
  induction 1 as [| a t Ht IH Ha]; simpl; [repeat constructor |].
  destruct (String.compare x a) eqn:E.
  - constructor; assumption.
  - constructor; [constructor; assumption |].
    constructor; [exact E |].
    eapply Forall_impl; [| exact Ha].
    intros b Hb. exact (compare_lt_trans _ _ _ E Hb).
  - constructor; [exact IH |].
    apply Forall_forall. intros b Hb. apply In_insert_uniq in Hb.
    destruct Hb as [-> | Hb]; [exact (compare_gt_lt _ _ E) |].
    rewrite Forall_forall in Ha. exact (Ha b Hb).
Qed.

Lemma sorted_set_sorted (l : list string) : strictly_sorted (sorted_set l).
Proof.
  unfold sorted_set. induction l as [| a t IH]; simpl.
  - constructor.
  - apply insert_uniq_sorted, IH.
Qed.

Lemma prefix_cons_inv (a : ascii) (p s : string) :
  String.prefix (String a p) s = true ->
  exists r, s = String a r /\ String.prefix p r = true.
Proof.
  destruct s as [| b r]; simpl; [discriminate |].
  destruct (ascii_dec a b) as [<- | _]; [| discriminate].
  intros H. exists r. auto.
Qed.

Section GroupFacts.
Context {CO : Collaborators}.

Lemma group_files_In (g : group) (filepaths : list string) (x : string) :
  In x (group_files g filepaths) <->
  In x (map abspath_expanduser filepaths) /\
  startswith (group_prefix g) (basename x) = true.
Proof.
  unfold group_files. rewrite In_sorted_set, filter_In.
  rewrite !in_map_iff.
  assert (Hpre : match g with
                 | grp_M => "SVM" | grp_I => "SVI" | grp_DNB => "SVDNB"
                 end = group_prefix g) by (destruct g; reflexivity).
  rewrite Hpre. split.
  - intros [[p [<- Hp]] Hs]. split; [| exact Hs].
    exists p. split; [reflexivity |]. apply In_sorted, Hp.
  - intros [[p [<- Hp]] Hs]. split; [| exact Hs].
    exists p. split; [reflexivity |]. apply In_sorted, Hp.
Qed.

(** X4.  A group of [run_glue] holds exactly the normalized input paths
    whose basename starts with the prefix of the group, each one once, in
    increasing order; a path given twice, or given in another order, makes
    no difference. *)
Theorem group_files_sorted_members (g : group) (filepaths : list string) :
  (forall x,
      In x (group_files g filepaths) <->
      In x (map abspath_expanduser filepaths) /\
      startswith (group_prefix g) (basename x) = true) /\
  strictly_sorted (group_files g filepaths) /\
  NoDup (group_files g filepaths).
Proof.
  split; [intros x; apply group_files_In |].
  assert (Hs : strictly_sorted (group_files g filepaths)).
  { unfold group_files. apply sorted_set_sorted. }
  split; [exact Hs |].
  unfold strictly_sorted in Hs.
  induction Hs as [| a t Ht IH Ha]; constructor; [| exact IH].
  intros Hin. rewrite Forall_forall in Ha. specialize (Ha a Hin).
  assert (Heq : String.compare a a = Eq)
    by (apply String_as_OT.cmp_eq; reflexivity).
  congruence.
Qed.

(** X5.  The three groups are disjoint: no path is in two of them. *)
Theorem group_files_disjoint (g1 g2 : group) (filepaths : list string)
    (x : string) :
  In x (group_files g1 filepaths) -> In x (group_files g2 filepaths) ->
  g1 = g2.
Proof.
  intros H1 H2.
  apply group_files_In in H1. apply group_files_In in H2.
  destruct H1 as [_ H1], H2 as [_ H2]. unfold startswith in *.
  destruct g1, g2; try reflexivity; exfalso; cbn [group_prefix] in *;
    repeat match goal with
           | H : String.prefix (String _ _) _ = true |- _ =>
               apply prefix_cons_inv in H; destruct H as [? [? H]]
           end;
    congruence.
Qed.

End GroupFacts.

(** Witness of X5: the M file of the two-file batch. *)
Lemma group_files_disjoint_witness : grp_M = grp_M.
Proof.
  apply (@group_files_disjoint (injected plan_both_fail) grp_M grp_M
           two_group_batch "/data/SVM01_npp_d20130117.h5");
    vm_compute; tauto.
Defined.

(** ** viirs2awips.py: the status of a batch *)

Section BatchFacts.
Context {SC : StatusCodes} {CO : Collaborators}.

(** X6.  When no input path belongs to a group, [run_glue] runs nothing
    and returns 0, in parallel and in sequential mode alike. *)
Theorem run_glue_no_group (filepaths : list string) (mp : bool) :
  (forall g, group_files g filepaths = []) ->
  run_glue filepaths mp [] = (Ok 0, [0]).
Proof.
  intros Hg. unfold run_glue. cbv zeta. rewrite !Hg. reflexivity.
Qed.

Lemma fold_py_or_zero (l : list Z) (a : Z) :
  fold_left py_or l a = 0 <-> a = 0 /\ forall s, In s l -> s = 0.
Proof.
  revert a. induction l as [| x t IH]; intros a; simpl.
  - intuition.
  - rewrite IH. unfold py_or. destruct (Z.eqb_spec a 0) as [-> | Hn].
    + split.
      * intros [-> H]. split; [reflexivity |].
        intros s [<- | Hs]; auto.
      * intros [_ H]. split; [apply H; left; reflexivity |].
        intros s Hs. apply H. right; exact Hs.
    + split; intros [Ha _]; contradiction.
Qed.

Lemma run_glue_parallel_fold (filepaths : list string) :
  (forall g, spawn g = Started) ->
  fst (run_glue filepaths true []) =
  Ok (fold_left py_or (group_statuses filepaths) 0).
Proof.
  intros Hs. unfold run_glue, group_statuses. cbv zeta.
  unfold bind at 1. cbn [assign app].
  unfold bind at 1. rewrite (dispatch_parallel_started _ _ _ (Hs grp_M)).
  unfold bind at 1. rewrite (dispatch_parallel_started _ _ _ (Hs grp_I)).
  unfold bind at 1. rewrite (dispatch_parallel_started _ _ _ (Hs grp_DNB)).
  cbn [flat_map app].
  destruct (group_files grp_M filepaths) as [| m ms];
    destruct (group_files grp_I filepaths) as [| i0 ii];
    destruct (group_files grp_DNB filepaths) as [| d ds];
    reflexivity.
Qed.

(** X7.  In parallel mode, when every process starts, [run_glue] returns 0
    exactly when every non-empty group ended with status 0. *)
Theorem run_glue_parallel_zero_iff (filepaths : list string) :
  (forall g, spawn g = Started) ->
  (fst (run_glue filepaths true []) = Ok 0 <->
   forall s, In s (group_statuses filepaths) -> s = 0).
Proof.
  intros Hs. rewrite (run_glue_parallel_fold filepaths Hs). split.
  - intros [= H]. apply fold_py_or_zero in H. exact (proj2 H).
  - intros H. f_equal. apply fold_py_or_zero. split; [reflexivity | exact H].
Qed.

End BatchFacts.

(** Witness of X6: a batch of one file that is of no group. *)
Lemma run_glue_no_group_witness :
  @run_glue bitmask_status (injected plan_both_fail)
            ["/data/GMTCO_npp_d20130117.h5"] false [] = (Ok 0, [0]).
Proof.
  apply (@run_glue_no_group bitmask_status (injected plan_both_fail)).
  intros g. destruct g; reflexivity.
Defined.

(** Witness of X7: the batch whose I group fails. *)
Lemma run_glue_parallel_zero_iff_witness :
  fst (@run_glue bitmask_status (injected plan_I_fails)
                 two_group_batch true []) = Ok 0 <->
  forall s, In s (@group_statuses bitmask_status (injected plan_I_fails)
                                  two_group_batch) -> s = 0.
Proof.
  apply (@run_glue_parallel_zero_iff bitmask_status (injected plan_I_fails)).
  intros g. reflexivity.
Defined.

(** Witness of X8: the two-file batch in sequential mode. *)
Lemma run_glue_sequential_never_returns_witness :
  exists c,
    fst (@run_glue bitmask_status (injected plan_I_fails)
                   two_group_batch false []) = Raise (SystemExit c).
Proof.
  apply (@run_glue_sequential_never_returns bitmask_status
           (injected plan_I_fails)).
  left. vm_compute. discriminate.
Defined.

(** ** drrtv/swath.py: the filename grammar *)

Lemma span_app (p : ascii -> bool) (a b : string) :
  all_chars p a = true -> starts_with p b = false ->
  span p (a ++ b) = (a, b).
Proof.
  intros Ha Hb. induction a as [| c r IH]; simpl in *.
  - destruct b as [| x y]; [reflexivity |]. simpl in Hb. simpl.
    rewrite Hb. reflexivity.
  - apply andb_true_iff in Ha. destruct Ha as [Hc Hr].
    rewrite Hc, (IH Hr). reflexivity.
Qed.

Lemma span_spec (p : ascii -> bool) (s a b : string) :
  span p s = (a, b) ->
  s = a ++ b /\ all_chars p a = true /\ starts_with p b = false.
Proof.
  revert a b. induction s as [| c r IH]; simpl; intros a b H.
  - injection H as <- <-. auto.
  - destruct (p c) eqn:Hc.
    + destruct (span p r) as [a' b'] eqn:Hs. injection H as <- <-.
      destruct (IH a' b' eq_refl) as [-> [Ha Hb]].
      simpl. rewrite Hc, Ha. auto.
    + injection H as <- <-. simpl. rewrite Hc. auto.
Qed.

Lemma expect_app (lit s : string) : expect lit (lit ++ s) = Some s.
Proof.
  induction lit as [| c r IH]; simpl; [destruct s; reflexivity |].
  rewrite Ascii.eqb_refl. exact IH.
Qed.

Lemma expect_spec (lit s r : string) : expect lit s = Some r -> s = lit ++ r.
Proof.
  revert s. induction lit as [| c l IH]; intros s; simpl.
  - destruct s; intros [= <-]; reflexivity.
  - destruct s as [| x y]; [discriminate |].
    destruct (Ascii.eqb_spec c x) as [<- | _]; [| discriminate].
    intros H. rewrite (IH _ H). reflexivity.
Qed.

Lemma eqb_empty_false (s : string) :
  s <> EmptyString -> String.eqb s EmptyString = false.
Proof. intros H. apply String.eqb_neq. exact H. Qed.

(** X9.  A name put together from an instrument, a date, a start time, an
    optional satellite and a tail that holds the text .h5 before any
    newline is matched by the grammar, and the match gives back exactly
    those pieces. *)
Theorem RE_DRRTV_match_compose (inst date time : string)
    (sat : option string) (rest : string) :
  inst <> EmptyString -> all_chars is_alnum inst = true ->
  date <> EmptyString -> all_chars is_digit date = true ->
  time <> EmptyString -> all_chars is_digit time = true ->
  (forall x, sat = Some x ->
             x <> EmptyString /\ all_chars is_alnum x = true) ->
  ends_piece sat rest = true ->
  lazy_dot_h5 rest = true ->
  RE_DRRTV_match (drrtv_name inst date time sat rest) =
  Some {| g_inst := inst; g_date := date;
          g_start_time := time; g_sat := sat |}.
Proof.
  intros Hi1 Hi2 Hd1 Hd2 Ht1 Ht2 Hsat Hend Hrest.
  unfold RE_DRRTV_match, drrtv_name.
  rewrite (span_app is_alnum inst _ Hi2) by reflexivity.
  rewrite (eqb_empty_false _ Hi1), expect_app.
  rewrite (span_app is_digit date _ Hd2) by reflexivity.
  rewrite (eqb_empty_false _ Hd1), expect_app.
  destruct sat as [x |]; unfold sat_text, ends_piece in *.
  - destruct (Hsat x eq_refl) as [Hx1 Hx2].
    cbn [append].
    rewrite (span_app is_digit time _ Ht2) by reflexivity.
    rewrite (eqb_empty_false _ Ht1).
    cbn [expect Ascii.eqb Bool.eqb].
    apply negb_true_iff in Hend.
    rewrite (span_app is_alnum x rest Hx2 Hend).
    rewrite (eqb_empty_false _ Hx1), Hrest. reflexivity.
  - apply andb_true_iff in Hend. destruct Hend as [He1 He2].
    apply negb_true_iff in He1. apply negb_true_iff in He2.
    cbn [append].
    rewrite (span_app is_digit time rest Ht2 He1).
    rewrite (eqb_empty_false _ Ht1).
    destruct (expect "_" rest) as [r |] eqn:Hex.
    + destruct (span is_alnum r) as [s r'] eqn:Hsp.
      apply span_spec in Hsp. destruct Hsp as [-> [Hs _]].
      destruct s as [| c s']; [cbn; rewrite Hrest; reflexivity |].
      simpl in He2. simpl in Hs. apply andb_true_iff in Hs.
      destruct Hs as [Hc _]. congruence.
    + rewrite Hrest. reflexivity.
Qed.

(** X10.  Whenever the grammar matches a name, the name is the pieces of
    the match put together, followed by a tail that holds the text .h5:
    the instrument is letters and digits, the date and the start time are
    digits, none of them is empty. *)
Theorem RE_DRRTV_match_decompose (s : string) (g : groupdict) :
  RE_DRRTV_match s = Some g ->
  (exists rest,
      s = drrtv_name (g_inst g) (g_date g) (g_start_time g) (g_sat g) rest /\
      lazy_dot_h5 rest = true) /\
  g_inst g <> EmptyString /\ all_chars is_alnum (g_inst g) = true /\
  g_date g <> EmptyString /\ all_chars is_digit (g_date g) = true /\
  g_start_time g <> EmptyString /\
  all_chars is_digit (g_start_time g) = true /\
  (forall x, g_sat g = Some x ->
             x <> EmptyString /\ all_chars is_alnum x = true).
Proof.
  unfold RE_DRRTV_match, drrtv_name.
  destruct (span is_alnum s) as [inst r1] eqn:H1.
  apply span_spec in H1. destruct H1 as [-> [Hi _]].
  destruct (String.eqb_spec inst EmptyString) as [| Hi1]; [discriminate |].
  destruct (expect "_d" r1) as [r2 |] eqn:H2; [| discriminate].
  apply expect_spec in H2. subst r1.
  destruct (span is_digit r2) as [date r3] eqn:H3.
  apply span_spec in H3. destruct H3 as [-> [Hd _]].
  destruct (String.eqb_spec date EmptyString) as [| Hd1]; [discriminate |].
  destruct (expect "_t" r3) as [r4 |] eqn:H4; [| discriminate].
  apply expect_spec in H4. subst r3.
  destruct (span is_digit r4) as [time r5] eqn:H5.
  apply span_spec in H5. destruct H5 as [-> [Ht _]].
  destruct (String.eqb_spec time EmptyString) as [| Ht1]; [discriminate |].
  destruct (expect "_" r5) as [r |] eqn:H6.
  - apply expect_spec in H6. subst r5.
    destruct (span is_alnum r) as [x r'] eqn:H7.
    apply span_spec in H7. destruct H7 as [-> [Hx _]].
    destruct (String.eqb_spec x EmptyString) as [-> | Hx1].
    + destruct (lazy_dot_h5 _) eqn:Hl; [| discriminate].
      intros [= <-]. cbn [g_inst g_date g_start_time g_sat sat_text].
      split; [eexists; split; [reflexivity | exact Hl] |].
      repeat (split; [assumption |]). intros ? [=].
    + destruct (lazy_dot_h5 r') eqn:Hl; [| discriminate].
      intros [= <-]. cbn [g_inst g_date g_start_time g_sat sat_text].
      split.
      * exists r'. split; [reflexivity | exact Hl].
      * repeat (split; [assumption |]). intros ? [= <-]. auto.
  - destruct (lazy_dot_h5 r5) eqn:Hl; [| discriminate].
    intros [= <-]. cbn [g_inst g_date g_start_time g_sat sat_text].
    split; [eexists; split; [reflexivity | exact Hl] |].
    repeat (split; [assumption |]). intros ? [=].
Qed.

(** Witness of X9: the name of the IASI retrieval of the source comment. *)
Lemma RE_DRRTV_match_compose_witness :
  RE_DRRTV_match (drrtv_name "IASI" "20130310" "152624" (Some "M02")
                             ".atm_prof_rtv.h5") =
  Some {| g_inst := "IASI"; g_date := "20130310";
          g_start_time := "152624"; g_sat := Some "M02" |}.
Proof.
  apply RE_DRRTV_match_compose; try reflexivity; try discriminate.
  intros x [= <-]. split; [discriminate | reflexivity].
Defined.

(** Witness of X10: the same name, taken apart. *)
Lemma RE_DRRTV_match_decompose_witness :
  (exists rest,
      "IASI_d20130310_t152624_M02.atm_prof_rtv.h5" =
      drrtv_name "IASI" "20130310" "152624" (Some "M02") rest /\
      lazy_dot_h5 rest = true) /\
  "IASI" <> EmptyString /\ all_chars is_alnum "IASI" = true /\
  "20130310" <> EmptyString /\ all_chars is_digit "20130310" = true /\
  "152624" <> EmptyString /\ all_chars is_digit "152624" = true /\
  (forall x, Some "M02" = Some x ->
             x <> EmptyString /\ all_chars is_alnum x = true).
Proof.
  exact (RE_DRRTV_match_decompose
           "IASI_d20130310_t152624_M02.atm_prof_rtv.h5"
           {| g_inst := "IASI"; g_date := "20130310";
              g_start_time := "152624"; g_sat := Some "M02" |} eq_refl).
Defined.

(** ** drrtv/swath.py: classification of the input files *)

Lemma nav_uid_eqb_eq (a b : nav_uid) : nav_uid_eqb a b = true <-> a = b.
Proof. destruct a, b; simpl; split; congruence. Qed.

Section DictUpdateFacts.
Context {K V : Type} (eqb : K -> K -> bool).
Hypothesis eqb_eq : forall a b, eqb a b = true <-> a = b.

Lemma dict_get_In_value (d : list (K * V)) (k : K) (v : V) :
  dict_get eqb d k = Some v -> In v (map snd d).
Proof.
  induction d as [| [k' v'] t IH]; simpl; [discriminate |].
  destruct (eqb k k'); [intros [= ->]; left; reflexivity |].
  intros H. right. exact (IH H).
Qed.

Lemma dict_get_set_other (d : list (K * V)) (k k' : K) (v : V) :
  k <> k' -> dict_get eqb (dict_set eqb d k v) k' = dict_get eqb d k'.
Proof.
  intros Hne.
  assert (Hf : eqb k' k = false).
  { destruct (eqb k' k) eqn:E; [| reflexivity].
    apply eqb_eq in E. congruence. }
  induction d as [| [k0 v0] t IH]; simpl.
  - rewrite Hf. reflexivity.
  - destruct (eqb k k0) eqn:E; simpl.
    + apply eqb_eq in E. subst k0. rewrite Hf. reflexivity.
    + rewrite IH. reflexivity.
Qed.

End DictUpdateFacts.

Section GroupingFacts.
Context {SE : SwathEnv}.

(** X11.  What [_filename_info] returns for a name is a row of
    [SAT_INST_TABLE]: the satellite, the instrument, the rows per scan and
    the navigation set belong together, and the rows per scan are 1 or 3,
    so that the division of [_swath_info] by them is defined. *)
Theorem _filename_info_table_row (pathname : string) (fi : fninfo) :
  fst (_filename_info pathname) = Ok (Some fi) ->
  In (fi_sat fi, fi_instrument fi, fi_rows_per_scan fi, fi_nav_set_uid fi)
     (map snd SAT_INST_TABLE) /\
  (fi_rows_per_scan fi = 1 \/ fi_rows_per_scan fi = 3) /\
  exists mgd, RE_DRRTV_match (basename pathname) = Some mgd.
Proof.
  unfold _filename_info.
  destruct (RE_DRRTV_match (basename pathname)) as [mgd |]; [| discriminate].
  unfold wbind, wlift.
  destruct (strptime _ _) as [when | e]; [| discriminate].
  destruct (match dict_get sat_inst_eqb SAT_INST_TABLE (g_sat mgd, g_inst mgd)
            with Some row => Some row
            | None => dict_get sat_inst_eqb SAT_INST_TABLE (None, g_inst mgd)
            end) as [[[[s i] rps] uid] |] eqn:Hrow; [| discriminate].
  cbn. intros [= <-]. cbn.
  assert (Hin : In (s, i, rps, uid) (map snd SAT_INST_TABLE)).
  { destruct (dict_get sat_inst_eqb SAT_INST_TABLE (g_sat mgd, g_inst mgd))
      eqn:H1.
    - injection Hrow as ->. exact (dict_get_In_value _ _ _ _ H1).
    - exact (dict_get_In_value _ _ _ _ Hrow). }
  split; [exact Hin |]. split; [| exists mgd; reflexivity].
  simpl in Hin.
  repeat (destruct Hin as [Hin | Hin]; [injection Hin as <- <- <- <-; auto |]).
  destruct Hin.
Qed.

Lemma sort_files_from_groups (filepaths : list string) :
  forall ret groups ev,
    sort_files_from ret filepaths = (Ok groups, ev) ->
    forall uid,
      dict_get nav_uid_eqb groups uid =
      grouped (dict_get nav_uid_eqb ret uid) (files_of_uid uid filepaths).
Proof.
  induction filepaths as [| pn rest IH]; intros ret groups ev H uid.
  - injection H as <- <-. simpl.
    destruct (dict_get nav_uid_eqb ret uid); simpl;
      rewrite ?app_nil_r; reflexivity.
  - cbn [sort_files_from] in H.
    apply wbind_Ok_inv in H. destruct H as (info & e1 & e2 & Hinfo & H & ->).
    unfold files_of_uid. cbn [filter]. unfold nav_uid_of at 1.
    rewrite Hinfo. cbn [fst].
    destruct info as [fi |].
    + rewrite (IH _ _ _ H uid). fold (files_of_uid uid rest).
      destruct (nav_uid_eqb (fi_nav_set_uid fi) uid) eqn:E.
      * apply nav_uid_eqb_eq in E. rewrite E.
        rewrite (dict_get_set_same nav_uid_eqb nav_uid_eqb_eq).
        destruct (dict_get nav_uid_eqb ret uid); simpl;
          rewrite <- ?app_assoc; reflexivity.
      * rewrite (dict_get_set_other nav_uid_eqb nav_uid_eqb_eq).
        -- reflexivity.
        -- intros Heq. rewrite Heq in E.
           assert (nav_uid_eqb uid uid = true) by (apply nav_uid_eqb_eq; auto).
           congruence.
    + rewrite (IH _ _ _ H uid). reflexivity.
Qed.

(** X12.  When [sort_files_by_nav_uid] returns, the entry of a navigation
    set holds the input paths of that set, all of them, in the order they
    were given; a set none of the paths belongs to has no entry, and a
    path whose name does not match the grammar is in no entry. *)
Theorem sort_files_by_nav_uid_partition (filepaths : list string)
    (groups : list (nav_uid * list string)) (ev : list event) :
  sort_files_by_nav_uid filepaths = (Ok groups, ev) ->
  forall uid,
    dict_get nav_uid_eqb groups uid =
    match files_of_uid uid filepaths with
    | [] => None
    | (_ :: _) as files => Some files
    end.
Proof.
  intros H uid. unfold sort_files_by_nav_uid in H.
  rewrite (sort_files_from_groups _ _ _ _ H uid). simpl.
  destruct (files_of_uid uid filepaths); reflexivity.
Qed.

(** X13.  When [parse_datetimes_from_filepaths] returns, it returns the
    start times of the paths whose name matches the grammar, in the order
    of the paths; the other paths are skipped. *)
Theorem parse_datetimes_matching (filepaths : list string)
    (zult : list datetime) (ev : list event) :
  parse_datetimes_from_filepaths filepaths = (Ok zult, ev) ->
  zult = flat_map (fun pn => match fst (_filename_info pn) with
                             | Ok (Some fi) => [fi_start_time fi]
                             | _ => []
                             end) filepaths.
Proof.
  revert zult ev. induction filepaths as [| pn rest IH]; intros zult ev H.
  - injection H as <- <-. reflexivity.
  - cbn [parse_datetimes_from_filepaths] in H.
    apply wbind_Ok_inv in H. destruct H as (info & e1 & e2 & Hinfo & H & ->).
    apply wbind_Ok_inv in H. destruct H as (z & e3 & e4 & Hz & H & ->).
    cbn [flat_map]. rewrite Hinfo. cbn [fst]. rewrite <- (IH _ _ Hz).
    destruct info as [fi |]; injection H as <- <-; reflexivity.
Qed.

End GroupingFacts.

(** Witness of X11: the IASI file of the examples. *)
Lemma _filename_info_table_row_witness :
  In (SAT_METOPA, INST_IASI, 1, IASI_NAV_UID) (map snd SAT_INST_TABLE) /\
  (1 = 1 \/ 1 = 3) /\
  exists mgd, RE_DRRTV_match (basename iasi_path) = Some mgd.
Proof.
  exact (@_filename_info_table_row sample_env iasi_path
           {| fi_start_time := {| year := 2013; month := 3; day := 10;
                                  hour := 15; minute := 26; second := 24 |};
              fi_nav_set_uid := IASI_NAV_UID;
              fi_sat := SAT_METOPA;
              fi_instrument := INST_IASI;
              fi_rows_per_scan := 1 |} eq_refl).
Defined.

(** Witness of X12: two retrieval files and a file of another kind. *)
Lemma sort_files_by_nav_uid_partition_witness :
  dict_get nav_uid_eqb
           [(IASI_NAV_UID, [iasi_path]); (CRIS_NAV_UID, [full_path])]
           CRIS_NAV_UID =
  match @files_of_uid sample_env CRIS_NAV_UID
          [iasi_path; "/data/notes.txt"; full_path] with
  | [] => None
  | (_ :: _) as files => Some files
  end.
Proof.
  apply (@sort_files_by_nav_uid_partition sample_env
           [iasi_path; "/data/notes.txt"; full_path]
           [(IASI_NAV_UID, [iasi_path]); (CRIS_NAV_UID, [full_path])]
           [Log DEBUG "%s doesn't match DR-RTV file naming convention"
                [AStr "/data/notes.txt"]]).
  vm_compute. reflexivity.
Defined.

(** Witness of X13: the same three paths. *)
Lemma parse_datetimes_matching_witness :
  [ {| year := 2013; month := 3; day := 10;
       hour := 15; minute := 26; second := 24 |};
    {| year := 2013; month := 3; day := 10;
       hour := 15; minute := 26; second := 24 |} ] =
  flat_map (fun pn => match fst (@_filename_info sample_env pn) with
                      | Ok (Some fi) => [fi_start_time fi]
                      | _ => []
                      end) [iasi_path; "/data/notes.txt"; full_path].
Proof.
  apply (@parse_datetimes_matching sample_env
           [iasi_path; "/data/notes.txt"; full_path] _
           [Log DEBUG "%s doesn't match DR-RTV file naming convention"
                [AStr "/data/notes.txt"]]).
  vm_compute. reflexivity.
Defined.

(** ** drrtv/swath.py: the geometry of a swath *)

Lemma _swath_shape_from_sum (rest : list h5file) :
  forall layers rows cols,
    layers <> 0%nat -> cols <> 0%nat ->
    (forall h5, In h5 rest ->
       exists l r c, relhum_shape h5 = Some [l; r; c]) ->
    _swath_shape_from layers rows cols rest =
    Ok (layers, (rows + fold_right Nat.add 0 (map relhum_rows rest))%nat, cols).
Proof.
  induction rest as [| h5 t IH]; intros layers rows cols Hl Hc Hall; simpl.
  - rewrite Nat.add_0_r. reflexivity.
  - destruct (Hall h5 (or_introl eq_refl)) as (l & r & c & Hs).
    unfold relhum_rows. rewrite Hs. unfold relhum_shape in Hs.
    destruct (dict_get String.eqb (datasets h5) "RelHum") as [rh |];
      [| discriminate].
    injection Hs as ->.
    destruct layers as [| layers']; [congruence |].
    destruct cols as [| cols']; [congruence |].
    cbn [Nat.eqb].
    rewrite IH; [| discriminate | discriminate |].
    + rewrite Nat.add_assoc. reflexivity.
    + intros h Hin. apply Hall. right; exact Hin.
Qed.

(** X14.  [_swath_shape] adds up the rows of all the files and takes the
    layers and the columns from the first file alone: the layers and
    columns of the other files are not compared with them. *)
Theorem _swath_shape_first_file (first : h5file) (rest : list h5file)
    (l r c : nat) :
  relhum_shape first = Some [l; r; c] ->
  l <> 0%nat -> c <> 0%nat ->
  (forall h5, In h5 rest ->
     exists l' r' c', relhum_shape h5 = Some [l'; r'; c']) ->
  _swath_shape (first :: rest) =
  Ok (l, (r + fold_right Nat.add 0 (map relhum_rows rest))%nat, c).
Proof.
  intros Hs Hl Hc Hall. unfold _swath_shape. cbn [_swath_shape_from].
  unfold relhum_shape in Hs.
  destruct (dict_get String.eqb (datasets first) "RelHum") as [rh |];
    [| discriminate].
  injection Hs as ->. cbn [Nat.eqb].
  exact (_swath_shape_from_sum rest l r c Hl Hc Hall).
Qed.

(** Witness of X14: a file of 2 layers, 1 row and 2 columns followed by a
    file of 5 layers, 3 rows and 7 columns. *)
Lemma _swath_shape_first_file_witness :
  _swath_shape [file_2x1x2; file_5x3x7] = Ok (2, 4, 2)%nat.
Proof.
  apply (_swath_shape_first_file file_2x1x2 [file_5x3x7] 2 1 2);
    try reflexivity; try discriminate.
  intros h5 [<- | []]. exists 5%nat, 3%nat, 7%nat. reflexivity.
Defined.

(** ** drrtv/swath.py: the layer axis *)

Lemma length_flat_map_seq {A} (f : nat -> list A) (k n s : nat) :
  (forall x, List.length (f x) = k) ->
  List.length (flat_map f (seq s n)) = (n * k)%nat.
Proof.
  intros Hf. revert s. induction n as [| n IH]; intros s; simpl;
    [reflexivity |].
  rewrite length_app, Hf, IH. reflexivity.
Qed.

Lemma nth_flat_map_seq {A} (f : nat -> list A) (k n : nat) (d : A) :
  (forall x, List.length (f x) = k) ->
  forall s i j, (i < n)%nat -> (j < k)%nat ->
    nth (i * k + j) (flat_map f (seq s n)) d = nth j (f (s + i)%nat) d.
Proof.
  intros Hf. induction n as [| n IH]; intros s i j Hi Hj; [lia |].
  simpl. destruct i as [| i'].
  - rewrite Nat.add_0_r. simpl. apply app_nth1. rewrite Hf. exact Hj.
  - rewrite app_nth2 by (rewrite Hf; simpl; lia).
    rewrite Hf. replace (S i' * k + j - k)%nat with (i' * k + j)%nat
      by (simpl; lia).
    rewrite IH by lia. f_equal. f_equal. lia.
Qed.

Lemma nth_map_seq {A} (g : nat -> A) (n l : nat) (d : A) :
  (l < n)%nat -> nth l (map g (seq 0 n)) d = g l.
Proof.
  intros Hl. rewrite (nth_indep _ d (g 0%nat))
    by (rewrite length_map, length_seq; exact Hl).
  rewrite map_nth, seq_nth by exact Hl. reflexivity.
Qed.

(** X15.  [_swath_from_var] moves the layer axis of a 3-D array to the
    back: an array of shape (layers, rows, cols) becomes one of shape
    (rows, cols, layers) with as many elements, and its element at
    [r, c, l] is the element at [l, r, c] of the array given. *)
Theorem roll_moves_layer_axis (var_name : string) (a : ndarray)
    (layers rows cols : nat) :
  shape a = [layers; rows; cols] ->
  exists a',
    fst (roll var_name a) = Ok a' /\
    shape a' = [rows; cols; layers] /\
    List.length (data a') = (rows * (cols * layers))%nat /\
    forall l r c, (l < layers)%nat -> (r < rows)%nat -> (c < cols)%nat ->
      nth (r * (cols * layers) + (c * layers + l)) (data a') 0%Q =
      nth (l * rows * cols + r * cols + c) (data a) 0%Q.
Proof.
  intros Hs. unfold roll. rewrite Hs. cbn [fst wbind emit wret].
  eexists. split; [reflexivity |]. cbn [shape data].
  split; [reflexivity |].
  assert (Hinner : forall r c,
            List.length (map (fun l => nth (l * rows * cols + r * cols + c)
                                            (data a) 0%Q) (seq 0 layers))
            = layers).
  { intros r c. rewrite length_map, length_seq. reflexivity. }
  assert (Hmid : forall r,
            List.length
              (flat_map (fun c => map (fun l => nth (l * rows * cols
                                                     + r * cols + c)
                                                    (data a) 0%Q)
                                      (seq 0 layers)) (seq 0 cols))
            = (cols * layers)%nat).
  { intros r. apply length_flat_map_seq. intros c. apply Hinner. }
  unfold rollaxis_0_3. split.
  - apply length_flat_map_seq. exact Hmid.
  - intros l r c Hl Hr Hc.
    rewrite (nth_flat_map_seq _ (cols * layers) rows 0%Q Hmid 0 r)
      by (try assumption; nia).
    rewrite (nth_flat_map_seq _ layers cols 0%Q (Hinner (0 + r)%nat) 0 c)
      by assumption.
    rewrite nth_map_seq by exact Hl. reflexivity.
Qed.

(** Witness of X15: the sample variable of 2 layers, 1 row, 2 columns. *)
Lemma roll_moves_layer_axis_witness :
  exists a',
    fst (roll "RelHum" (h5_all var_2x1x2)) = Ok a' /\
    shape a' = [1; 2; 2]%nat /\
    List.length (data a') = (1 * (2 * 2))%nat /\
    forall l r c, (l < 2)%nat -> (r < 1)%nat -> (c < 2)%nat ->
      nth (r * (2 * 2) + (c * 2 + l)) (data a') 0%Q =
      nth (l * 1 * 2 + r * 2 + c) (data (h5_all var_2x1x2)) 0%Q.
Proof.
  exact (roll_moves_layer_axis "RelHum" (h5_all var_2x1x2) 2 1 2 eq_refl).
Defined.

(** ** drrtv/swath.py: ties of the layer selection *)




(** ** drrtv/swath.py: the longitude fix *)

Lemma length_update (h : heap) (r : nat) (a : ndarray) :
  List.length (update h r a) = List.length h.
Proof.
  revert r. induction h as [| x t IH]; intros r; [reflexivity |].
  destruct r; simpl; [| rewrite IH]; reflexivity.
Qed.

Lemma deref_update_same (h : heap) (r : nat) (a : ndarray) :
  (r < List.length h)%nat -> deref (update h r a) r = a.
Proof.
  unfold deref. revert r. induction h as [| x t IH]; intros r Hr;
    [simpl in Hr; lia |].
  destruct r; simpl; [reflexivity |]. apply IH. simpl in Hr. lia.
Qed.

Lemma deref_update_other (h : heap) (r k : nat) (a : ndarray) :
  k <> r -> deref (update h r a) k = deref h k.
Proof.
  unfold deref. revert r k. induction h as [| x t IH]; intros r k Hne;
    [reflexivity |].
  destruct r, k; simpl; try reflexivity; try congruence.
  apply IH. congruence.
Qed.

Lemma deref_rank2_allocated (h : heap) (r rows cols : nat) :
  shape (deref h r) = [rows; cols] -> (r < List.length h)%nat.
Proof.
  intros Hs. destruct (Nat.lt_ge_cases r (List.length h)) as [H | H];
    [exact H |].
  unfold deref in Hs. rewrite nth_overflow in Hs by exact H.
  discriminate Hs.
Qed.

(** X17.  When the longitude fix returns, it returns the very object it
    was given; no other object of the store is touched, no object is
    created, and the object keeps its shape, its dtype, its mask and its
    number of elements. *)
Theorem _make_longitude_monotonic_in_place (lon_swath : nat) (h : heap)
    (r' : nat) (h' : heap) :
  _make_longitude_monotonic lon_swath h = Ok (r', h') ->
  r' = lon_swath /\
  List.length h' = List.length h /\
  (forall k, k <> lon_swath -> deref h' k = deref h k) /\
  shape (deref h' lon_swath) = shape (deref h lon_swath) /\
  dt (deref h' lon_swath) = dt (deref h lon_swath) /\
  mask (deref h' lon_swath) = mask (deref h lon_swath) /\
  List.length (data (deref h' lon_swath)) =
  List.length (data (deref h lon_swath)).
Proof.
  unfold _make_longitude_monotonic.
  destruct (shape (deref h lon_swath)) as [| rows [| cols [| x t]]] eqn:Hs;
    try discriminate.
  pose proof (deref_rank2_allocated _ _ _ _ Hs) as Hr.
  destruct (needs_shift _) as [[|] | e]; [| | discriminate].
  - intros [= <- <-]. split; [reflexivity |].
    split; [apply length_update |].
    split; [intros k Hk; apply deref_update_other; exact Hk |].
    rewrite (deref_update_same _ _ _ Hr). cbn [shape dt mask data].
    rewrite length_map. auto.
  - intros [= <- <-]. rewrite Hs. auto 10.
Qed.


(** Witness of X17: a swath of two rows, alone in the store. *)
Lemma _make_longitude_monotonic_in_place_witness :
  exists h',
    _make_longitude_monotonic 0%nat [lon_2x2] = Ok (0%nat, h') /\
    List.length h' = 1%nat /\
    (forall k, k <> 0%nat -> deref h' k = deref [lon_2x2] k) /\
    shape (deref h' 0%nat) = [2; 2]%nat /\
    dt (deref h' 0%nat) = float32 /\
    mask (deref h' 0%nat) = Some [false; false; false; false] /\
    List.length (data (deref h' 0%nat)) = 4%nat.
Proof.
  eexists. split; [vm_compute; reflexivity |].
  exact (proj2 (_make_longitude_monotonic_in_place 0%nat [lon_2x2] 0%nat _ eq_refl)).
Defined.


(** ** drrtv/swath.py: dictionaries built from pairs *)

Section DictOfFacts.
Context {K V : Type} (eqb : K -> K -> bool).
Hypothesis eqb_eq : forall a b, eqb a b = true <-> a = b.

Lemma dict_get_app (l1 l2 : list (K * V)) (k : K) :
  dict_get eqb (l1 ++ l2) k =
  match dict_get eqb l1 k with
  | Some v => Some v
  | None => dict_get eqb l2 k
  end.
Proof.
  induction l1 as [| [k' v'] t IH]; simpl; [reflexivity |].
  destruct (eqb k k'); [reflexivity | exact IH].
Qed.

Lemma dict_get_set (d : list (K * V)) (k k' : K) (v : V) :
  dict_get eqb (dict_set eqb d k v) k' =
  if eqb k' k then Some v else dict_get eqb d k'.
Proof.
  destruct (eqb k' k) eqn:E.
  - apply eqb_eq in E. subst k'. apply dict_get_set_same. exact eqb_eq.
  - apply dict_get_set_other; [exact eqb_eq |].
    intros ->. assert (eqb k' k' = true) by (apply eqb_eq; reflexivity).
    congruence.
Qed.

(** In a dictionary built from pairs the last pair with a key wins. *)
Lemma dict_of_get_rev (pairs : list (K * V)) (k : K) :
  dict_get eqb (dict_of eqb pairs) k = dict_get eqb (rev pairs) k.
Proof.
  unfold dict_of.
  assert (G : forall acc,
             dict_get eqb
               (fold_left (fun d kv => dict_set eqb d (fst kv) (snd kv))
                          pairs acc) k =
             match dict_get eqb (rev pairs) k with
             | Some v => Some v
             | None => dict_get eqb acc k
             end).
  { induction pairs as [| [k0 v0] t IH]; intros acc; [reflexivity |].
    cbn [fold_left rev fst snd]. rewrite IH, dict_get_app.
    destruct (dict_get eqb (rev t) k); [reflexivity |].
    rewrite dict_get_set. simpl. destruct (eqb k k0); reflexivity. }
  rewrite G. destruct (dict_get eqb (rev pairs) k); reflexivity.
Qed.

End DictOfFacts.

Section SuffixFacts.
Context {SE : SwathEnv}.

(** X19.  The suffix the writer finds for a dtype is the name of the last
    entry of the table of polar2grid.core.fbf that has this dtype; a dtype
    the table does not hold has no suffix. *)
Theorem nptype_to_suffix_last_entry (d : dtype) :
  dict_get dtype_eqb nptype_to_suffix d =
  option_map fst (find (fun kv => dtype_eqb d (snd kv)) (rev str_to_dtype)).
Proof.
  unfold nptype_to_suffix, _dict_reverse.
  rewrite (dict_of_get_rev dtype_eqb dtype_eqb_eq), <- map_rev.
  induction (rev str_to_dtype) as [| [s d'] t IH]; [reflexivity |].
  cbn [map dict_get find fst snd].
  destruct (dtype_eqb d d'); [reflexivity | exact IH].
Qed.

End SuffixFacts.

(** ** drrtv/swath.py: what the writer leaves on disk *)

Lemma length_fill_masked {SE : SwathEnv} (d : list Q) (m : list bool) :
  List.length (fill_masked d m) = List.length d.
Proof.
  revert m. induction d as [| x t IH]; intros m; [reflexivity |].
  destruct m as [| b m']; [reflexivity |]. simpl. rewrite IH. reflexivity.
Qed.

Section WriterEventFacts.
Context {SE : SwathEnv}.

(** X20.  Whatever the writer is given, a file it writes is the file whose
    name it returns: it holds 4-byte floats, one for each element of the
    array, and the array has rank 2.  When the writer raises or returns
    None it has written nothing. *)
Theorem _write_array_to_fbf_file_is_result (name : string) (a : ndarray)
    (fn : string) (d : dtype) (contents : list Q) :
  In (FileWritten fn d contents) (snd (_write_array_to_fbf name a)) ->
  fst (_write_array_to_fbf name a) = Ok (Some fn) /\
  d = float32 /\
  List.length contents = List.length (data a) /\
  List.length (shape a) = 2%nat.
Proof.
  unfold _write_array_to_fbf.
  destruct (shape a) as [| rows [| cols [| x t]]];
    try (cbn; intros [H | []]; discriminate H).
  unfold wbind, emit, wret, wraise.
  destruct (mask a) as [m |].
  - destruct (dict_get dtype_eqb nptype_to_suffix float32) as [dts |] eqn:Hd;
      cbn [dt]; rewrite Hd; cbn.
    + intros [H | [H | [H | []]]]; try discriminate H.
      injection H as <- <- <-. rewrite length_fill_masked. auto.
    + intros [H | []]. discriminate H.
  - destruct (dict_get dtype_eqb nptype_to_suffix (dt a)) as [dts |]; cbn.
    + intros [H | [H | []]]; try discriminate H.
      injection H as <- <- <-. auto.
    + intros [].
Qed.

End WriterEventFacts.

(** Witness of X20: the masked sample array. *)
Lemma _write_array_to_fbf_file_is_result_witness :
  fst (@_write_array_to_fbf sample_env "swath_latitude"
         masked_float64_252x60) = Ok (Some "swath_latitude.real4.60.252") /\
  float32 = float32 /\
  List.length (data masked_float64_252x60) =
  List.length (data masked_float64_252x60) /\
  List.length (shape masked_float64_252x60) = 2%nat.
Proof.
  apply (@_write_array_to_fbf_file_is_result sample_env "swath_latitude"
           masked_float64_252x60 "swath_latitude.real4.60.252" float32
           (data masked_float64_252x60)).
  vm_compute. tauto.
Defined.

(** Witness of X21: the rank-1 CAPE of the sample file. *)
Lemma _write_array_to_fbf_rejects_witness :
  @_write_array_to_fbf sample_env "CAPE"
    {| dt := float32; shape := [2%nat]; data := [1 # 1; 2 # 1]%Q;
       mask := None |} =
  (Ok None,
   [Log WARNING "data %r shape is %r, ignoring"
        [AStr "CAPE"; AShape [2%nat]]]).
Proof.
  apply (@_write_array_to_fbf_rejects sample_env "CAPE"
           {| dt := float32; shape := [2%nat]; data := [1 # 1; 2 # 1]%Q;
              mask := None |}).
  simpl. lia.
Defined.


(** ** drrtv/swath.py: runs of the coordinator *)

Section RunFacts.
Context {SE : SwathEnv}.

Lemma wbind_Ok {A B} (a : A) (l : list event) (f : A -> W B) :
  wbind (Ok a, l) f = (fst (f a), (l ++ snd (f a))%list).
Proof. unfold wbind. destruct (f a). reflexivity. Qed.

Lemma set_add_In (pn : string) (s : list string) :
  In pn (if existsb (String.eqb pn) s then s else (s ++ [pn])%list) /\
  forall x, In x s ->
            In x (if existsb (String.eqb pn) s then s else (s ++ [pn])%list).
Proof.
  destruct (existsb (String.eqb pn) s) eqn:E.
  - split; [| auto]. apply existsb_exists in E.
    destruct E as [y [Hy Heq]]. apply String.eqb_eq in Heq. subst y.
    exact Hy.
  - split; [apply in_or_app; right; left; reflexivity |].
    intros x Hx. apply in_or_app. left; exact Hx.
Qed.

Lemma find_bad_files_all (pns : list string) :
  forall bad,
  exists bad' ev,
    find_bad_files bad pns = (Ok bad', ev) /\
    Forall (fun e => is_file e = false) ev /\
    (forall x, In x bad -> In x bad') /\
    (forall pn, In pn pns ->
       h5_read pn = None \/ RE_DRRTV_match (basename pn) = None ->
       In pn bad').
Proof.
  induction pns as [| pn rest IH]; intros bad.
  - exists bad, []. cbn. repeat split; auto. intros ? [].
  - cbn [find_bad_files]. cbv zeta.
    pose proof (set_add_In pn bad) as [Ha1 Ha2].
    pose proof (set_add_In pn
                  (if existsb (String.eqb pn) bad then bad
                   else (bad ++ [pn])%list)) as [Hb1 Hb2].
    destruct (h5_read pn) as [ds |] eqn:Hread;
      destruct (RE_DRRTV_match (basename pn)) as [g |] eqn:Hre;
      unfold wbind, emit, wret;
      match goal with
      | |- context [find_bad_files ?X rest] =>
          destruct (IH X) as (bad' & ev & Hrun & Hev & Hkeep & Hall);
          rewrite Hrun
      end;
      eexists bad', _; (split; [reflexivity |]);
      (split; [first [exact Hev | constructor; [reflexivity | exact Hev]] |]);
      (split; [intros x Hx; apply Hkeep; auto |]);
      intros x [<- | Hx] Hbad; try exact (Hall x Hx Hbad);
      try (apply Hkeep; auto; fail);
      destruct Hbad; congruence.
Qed.

(** X23.  When none of the paths is usable (each one is not an HDF5 file,
    or its name does not match the grammar; also when no path is given),
    [swathbuckler] returns the empty dictionary, logs the error and writes
    no file. *)
Theorem swathbuckler_no_usable_input (pns : list string) :
  (forall pn, In pn pns ->
     h5_read pn = None \/ RE_DRRTV_match (basename pn) = None) ->
  fst (swathbuckler pns) = Ok None /\
  Forall (fun e => is_file e = false) (snd (swathbuckler pns)) /\
  In (Log ERROR "no input was available to process!" [])
     (snd (swathbuckler pns)).
Proof.
  intros Hbad.
  destruct (find_bad_files_all pns [])
    as (bad' & ev & Hrun & Hev & _ & Hall).
  assert (Husable : filter (fun x => negb (existsb (String.eqb x) bad')) pns
                    = []).
  { apply filter_none. intros x Hx. apply negb_false_iff.
    apply existsb_exists. exists x. split; [exact (Hall x Hx (Hbad x Hx)) |].
    apply String.eqb_refl. }
  unfold swathbuckler, swath_setup. rewrite Hrun, wbind_Ok.
  cbv zeta beta. rewrite Husable. cbn [open_all flat_map].
  destruct bad' as [| b0 bt]; cbn; rewrite ?app_nil_r;
    (split; [reflexivity |]); split;
    try (apply Forall_app; split; [exact Hev | repeat constructor]);
    apply in_or_app; right; simpl; tauto.
Qed.

End RunFacts.

(** Witness of X23: a path that is neither on the disk of the examples nor
    named after the grammar. *)
Lemma swathbuckler_no_usable_input_witness :
  fst (@swathbuckler sample_env ["/data/notes.txt"]) = Ok None /\
  Forall (fun e => is_file e = false)
         (snd (@swathbuckler sample_env ["/data/notes.txt"])) /\
  In (Log ERROR "no input was available to process!" [])
     (snd (@swathbuckler sample_env ["/data/notes.txt"])).
Proof.
  apply (@swathbuckler_no_usable_input sample_env ["/data/notes.txt"]).
  intros pn [<- | []]. left. reflexivity.
Defined.

(** ** drrtv/swath.py: the metadata of a run that returns *)

Lemma map_entry_key_manifest (s : satellite) (i : instrument) (plev : list Q) :
  map entry_key (dict_of String.eqb (_var_manifest s i plev)) = guidebook_keys.
Proof. vm_compute. reflexivity. Qed.

Lemma guidebook_keys_distinct :
  fold_left add_key guidebook_keys [] = guidebook_keys.
Proof. vm_compute. reflexivity. Qed.

Lemma map_fst_dict_set (d : list (band_key * band)) (k : band_key) (v : band) :
  map fst (dict_set band_key_eqb d k v) = add_key (map fst d) k.
Proof.
  unfold add_key. induction d as [| [k' v'] t IH]; [reflexivity |].
  cbn [dict_set map fst existsb].
  destruct (band_key_eqb k k') eqn:E; cbn [orb map fst].
  - apply band_key_eqb_eq in E. subst k'. reflexivity.
  - rewrite IH. destruct (existsb (band_key_eqb k) (map fst t)); reflexivity.
Qed.

Lemma written_in_app (e1 e2 : list event) (fn : option string) :
  written_in e1 fn \/ written_in e2 fn -> written_in (e1 ++ e2) fn.
Proof.
  destruct fn as [f |]; simpl; [| auto].
  intros [[c H] | [c H]]; exists c; apply in_or_app; auto.
Qed.

Section MetadataFacts.
Context {SE : SwathEnv}.

Lemma swathbuckler_Some_inv (pns : list string) (meta : swath_meta)
    (ev : list event) :
  swathbuckler pns = (Ok (Some meta), ev) ->
  exists h5s nfo manifest e1 bs e2,
    swath_setup pns = (Ok (Some (h5s, nfo, manifest)), e1) /\
    extract_bands h5s nfo manifest [] = (Ok bs, e2) /\
    ev = (e1 ++ e2 ++ [Log DEBUG "metadata: %s" []])%list /\
    bands meta = bs /\
    swath_rows meta = swath_rows nfo /\
    swath_cols meta = swath_cols nfo /\
    swath_scans meta = swath_scans nfo /\
    rows_per_scan meta = rows_per_scan nfo /\
    fbf_lat meta = fbf_lat nfo /\ fbf_lon meta = fbf_lon nfo.
Proof.
  unfold swathbuckler. intros H.
  apply wbind_Ok_inv in H. destruct H as (setup & e1 & e2 & Hs & H & ->).
  destruct setup as [[[h5s nfo] manifest] |]; [| discriminate H].
  apply wbind_Ok_inv in H. destruct H as (bs & e3 & e4 & Hb & H & ->).
  apply wbind_Ok_inv in H. destruct H as (u & e5 & e6 & Hu & H & ->).
  injection Hu as _ <-. injection H as <- <-.
  exists h5s, nfo, manifest, e1, bs, e3. cbn. auto 12.
Qed.

Lemma swath_setup_manifest (pns : list string) (h5s : list h5file)
    (nfo : swath_meta) (manifest : list (string * manifest_entry))
    (ev : list event) :
  swath_setup pns = (Ok (Some (h5s, nfo, manifest)), ev) ->
  manifest =
  dict_of String.eqb (_var_manifest (sat nfo) (instrument_of nfo) (_plev nfo)).
Proof.
  unfold swath_setup. intros H.
  apply wbind_Ok_inv in H. destruct H as (bad & e1 & e2 & _ & H & ->).
  apply wbind_Ok_inv in H. destruct H as (u & e3 & e4 & _ & H & ->).
  cbv zeta in H. destruct (open_all _) as [| h5 rest].
  { apply wbind_Ok_inv in H. destruct H as (? & ? & ? & _ & H & _).
    discriminate H. }
  apply wbind_Ok_inv in H. destruct H as (nfo0 & e5 & e6 & _ & H & ->).
  apply wbind_Ok_inv in H. destruct H as (u' & e7 & e8 & _ & H & ->).
  apply wbind_Ok_inv in H. destruct H as (lat & e9 & e10 & _ & H & ->).
  apply wbind_Ok_inv in H. destruct H as (lon & e11 & e12 & _ & H & ->).
  injection H as <- <- <- <-. reflexivity.
Qed.

Lemma extract_bands_keys (h5s : list h5file) (nfo : swath_meta)
    (manifest : list (string * manifest_entry)) :
  forall done bs ev,
    extract_bands h5s nfo manifest done = (Ok bs, ev) ->
    map fst bs = fold_left add_key (map entry_key manifest) (map fst done).
Proof.
  induction manifest as [| [name guide] rest IH]; intros done bs ev H.
  - injection H as <- <-. reflexivity.
  - cbn [extract_bands] in H.
    apply wbind_Ok_inv in H. destruct H as (u & e1 & e2 & _ & H & ->).
    apply wbind_Ok_inv in H. destruct H as (fn & e3 & e4 & _ & H & ->).
    rewrite (IH _ _ _ H), map_fst_dict_set. reflexivity.
Qed.

(** X24.  When [swathbuckler] returns metadata, its bands are those of the
    manifest, one descriptor for each of the 22 entries and no other,
    whatever the files hold: no entry takes the place of another. *)
Theorem swathbuckler_bands_keys (pns : list string) (meta : swath_meta)
    (ev : list event) :
  swathbuckler pns = (Ok (Some meta), ev) ->
  map fst (bands meta) = guidebook_keys /\
  List.length (bands meta) = 22%nat.
Proof.
  intros H. apply swathbuckler_Some_inv in H.
  destruct H as (h5s & nfo & manifest & e1 & bs & e2 & Hs & Hb & _ & -> & _).
  apply swath_setup_manifest in Hs. subst manifest.
  apply extract_bands_keys in Hb.
  rewrite map_entry_key_manifest in Hb. cbn [map] in Hb.
  rewrite guidebook_keys_distinct in Hb.
  split; [exact Hb |].
  rewrite <- (length_map fst), Hb. reflexivity.
Qed.

Lemma extract_bands_agree (h5s : list h5file) (nfo : swath_meta)
    (manifest : list (string * manifest_entry)) :
  forall done bs ev,
    Forall (band_agrees nfo) done ->
    extract_bands h5s nfo manifest done = (Ok bs, ev) ->
    Forall (band_agrees nfo) bs.
Proof.
  induction manifest as [| [name guide] rest IH]; intros done bs ev Hd H.
  - injection H as <- <-. exact Hd.
  - cbn [extract_bands] in H.
    apply wbind_Ok_inv in H. destruct H as (u & e1 & e2 & _ & H & ->).
    apply wbind_Ok_inv in H. destruct H as (fn & e3 & e4 & _ & H & ->).
    eapply IH; [| exact H].
    apply Forall_forall. intros kb Hin.
    apply dict_set_In in Hin. destruct Hin as [-> | Hin].
    + unfold band_agrees. cbn. auto 10.
    + rewrite Forall_forall in Hd. exact (Hd kb Hin).
Qed.

(** X25.  When [swathbuckler] returns metadata, every band descriptor in
    it carries the rows, columns, scans and rows per scan of the swath
    itself, and the kind and band of the key it is stored under. *)
Theorem swathbuckler_bands_agree (pns : list string) (meta : swath_meta)
    (ev : list event) :
  swathbuckler pns = (Ok (Some meta), ev) ->
  Forall (band_agrees meta) (bands meta).
Proof.
  intros H. apply swathbuckler_Some_inv in H.
  destruct H as (h5s & nfo & manifest & e1 & bs & e2 & _ & Hb & _ & -> &
                 Hr & Hc & Hsc & Hrps & _).
  assert (Hnfo : Forall (band_agrees nfo) bs).
  { eapply extract_bands_agree; [constructor | exact Hb]. }
  eapply Forall_impl; [| exact Hnfo].
  intros kb. unfold band_agrees. rewrite Hr, Hc, Hsc, Hrps. auto.
Qed.

Lemma _write_array_to_fbf_written (name : string) (a : ndarray)
    (fn : option string) (ev : list event) :
  _write_array_to_fbf name a = (Ok fn, ev) -> written_in ev fn.
Proof.
  destruct fn as [f |]; [| intros _; exact I].
  unfold _write_array_to_fbf.
  destruct (shape a) as [| rows [| cols [| x t]]]; try discriminate.
  intros H.
  apply wbind_Ok_inv in H. destruct H as (a1 & e1 & e2 & _ & H & ->).
  destruct (dict_get dtype_eqb nptype_to_suffix (dt a1)); [| discriminate H].
  cbn in H. injection H as <- <-.
  eexists. apply in_or_app. right. right. left. reflexivity.
Qed.

Lemma _gobble_written (h5s : list h5file) (name var_name : string)
    (tool : option (h5var -> W ndarray)) (explode : bool)
    (filter : option filter_fn) (fn : option string) (ev : list event) :
  _gobble h5s name var_name tool explode filter = (Ok fn, ev) ->
  written_in ev fn.
Proof.
  unfold _gobble. intros H.
  apply wbind_Ok_inv in H. destruct H as (sections & e1 & e2 & _ & H & ->).
  apply wbind_Ok_inv in H. destruct H as (joined & e3 & e4 & _ & H & ->).
  cbn [alloc] in H.
  apply wbind_Ok_inv in H. destruct H as ([r h1] & e5 & e6 & _ & H & ->).
  apply wbind_Ok_inv in H. destruct H as (arr & e7 & e8 & _ & H & ->).
  apply _write_array_to_fbf_written in H.
  repeat (apply written_in_app; right). exact H.
Qed.

Lemma extract_bands_written (h5s : list h5file) (nfo : swath_meta)
    (manifest : list (string * manifest_entry)) :
  forall done bs ev before,
    Forall (fun kb => written_in before (b_fbf_img (snd kb))) done ->
    extract_bands h5s nfo manifest done = (Ok bs, ev) ->
    Forall (fun kb => written_in (before ++ ev) (b_fbf_img (snd kb))) bs.
Proof.
  induction manifest as [| [name guide] rest IH];
    intros done bs ev before Hd H.
  - injection H as <- <-. rewrite app_nil_r. exact Hd.
  - cbn [extract_bands] in H.
    apply wbind_Ok_inv in H. destruct H as (u & e1 & e2 & Hu & H & ->).
    apply wbind_Ok_inv in H. destruct H as (fn & e3 & e4 & Hg & H & ->).
    apply _gobble_written in Hg.
    rewrite !app_assoc. eapply IH; [| exact H].
    apply Forall_forall. intros kb Hin.
    apply dict_set_In in Hin. destruct Hin as [-> | Hin].
    + cbn. apply written_in_app. right. exact Hg.
    + rewrite Forall_forall in Hd. rewrite <- app_assoc.
      apply written_in_app. left. exact (Hd kb Hin).
Qed.

(** X26.  When [swathbuckler] returns metadata, every file name in it (the
    latitude file, the longitude file and the file of each band that has
    one) is the name of a file of 4-byte floats that the run has written. *)
Theorem swathbuckler_files_written (pns : list string) (meta : swath_meta)
    (ev : list event) :
  swathbuckler pns = (Ok (Some meta), ev) ->
  written_in ev (fbf_lat meta) /\
  written_in ev (fbf_lon meta) /\
  Forall (fun kb => written_in ev (b_fbf_img (snd kb))) (bands meta).
Proof.
  intros H. apply swathbuckler_Some_inv in H.
  destruct H as (h5s & nfo & manifest & e1 & bs & e2 & Hs & Hb & -> & -> &
                 _ & _ & _ & _ & -> & ->).
  destruct (swath_setup_geolocation_last _ _ _ _ _ Hs)
    as (before & lat & e_lat & lon & e_lon & -> & Hlat & Hlon & -> & ->).
  apply _gobble_written in Hlat. apply _gobble_written in Hlon.
  split; [| split].
  - apply written_in_app. left. apply written_in_app. right.
    apply written_in_app. left. exact Hlat.
  - apply written_in_app. left. apply written_in_app. right.
    apply written_in_app. right. exact Hlon.
  - rewrite app_assoc. eapply Forall_impl.
    + intros kb Hkb. apply written_in_app. left. exact Hkb.
    + eapply extract_bands_written; [constructor | exact Hb].
Qed.

End MetadataFacts.

(** Witness of X24: the run on the sample file that holds every variable. *)
Lemma swathbuckler_bands_keys_witness :
  exists meta ev,
    @swathbuckler sample_env [full_path] = (Ok (Some meta), ev) /\
    map fst (bands meta) = guidebook_keys /\
    List.length (bands meta) = 22%nat.
Proof.
  destruct (@swathbuckler sample_env [full_path])
    as [[[meta |] | e] ev] eqn:Hrun;
    [| vm_compute in Hrun; discriminate Hrun
     | vm_compute in Hrun; discriminate Hrun].
  exists meta, ev. split; [reflexivity |].
  exact (@swathbuckler_bands_keys sample_env [full_path] meta ev Hrun).
Defined.

(** Witness of X25: the same run. *)
Lemma swathbuckler_bands_agree_witness :
  exists meta ev,
    @swathbuckler sample_env [full_path] = (Ok (Some meta), ev) /\
    Forall (band_agrees meta) (bands meta).
Proof.
  destruct (@swathbuckler sample_env [full_path])
    as [[[meta |] | e] ev] eqn:Hrun;
    [| vm_compute in Hrun; discriminate Hrun
     | vm_compute in Hrun; discriminate Hrun].
  exists meta, ev. split; [reflexivity |].
  exact (@swathbuckler_bands_agree sample_env [full_path] meta ev Hrun).
Defined.

(** Witness of X26: the same run. *)
Lemma swathbuckler_files_written_witness :
  exists meta ev,
    @swathbuckler sample_env [full_path] = (Ok (Some meta), ev) /\
    written_in ev (fbf_lat meta) /\
    written_in ev (fbf_lon meta) /\
    Forall (fun kb => written_in ev (b_fbf_img (snd kb))) (bands meta).
Proof.
  destruct (@swathbuckler sample_env [full_path])
    as [[[meta |] | e] ev] eqn:Hrun;
    [| vm_compute in Hrun; discriminate Hrun
     | vm_compute in Hrun; discriminate Hrun].
  exists meta, ev. split; [reflexivity |].
  exact (@swathbuckler_files_written sample_env [full_path] meta ev Hrun).
Defined.

(** ** drrtv/swath.py: one variable over all the files *)

Lemma wmap_raises {A B} (f : A -> W B) (xs : list A) (x : A) :
  In x xs -> (exists e, fst (f x) = Raise e) ->
  exists e, fst (wmap f xs) = Raise e.
Proof.
  intros Hin [e He]. induction xs as [| y t IH]; [destruct Hin |].
  cbn [wmap]. unfold wbind.
  destruct (f y) as [[b | e'] l] eqn:Hy.
  - destruct Hin as [-> | Hin].
    + rewrite Hy in He. discriminate He.
    + destruct (IH Hin) as [e2 H2].
      destruct (wmap f t) as [[ys | e3] l2]; [discriminate H2 |].
      exists e3. reflexivity.
  - exists e'. reflexivity.
Qed.

Section SectionsFacts.
Context {SE : SwathEnv}.

(** X27.  When one of the files has no dataset of the name asked for,
    [_gobble] raises: it never builds a swath from the files that do have
    it. *)
Theorem _gobble_missing_variable (h5s : list h5file) (name var_name : string)
    (tool : option (h5var -> W ndarray)) (explode : bool)
    (filter : option filter_fn) (h5 : h5file) :
  In h5 h5s ->
  dict_get String.eqb (datasets h5) var_name = None ->
  exists e, fst (_gobble h5s name var_name tool explode filter) = Raise e.
Proof.
  intros Hin Hmiss. unfold _gobble.
  match goal with
  | |- context [wmap ?f h5s] =>
      destruct (wmap_raises f h5s h5 Hin) as [e He]
  end.
  { exists KeyError. rewrite Hmiss. reflexivity. }
  unfold wbind at 1.
  destruct (wmap _ h5s) as [[sections | e'] l]; [discriminate He |].
  exists e'. reflexivity.
Qed.


End SectionsFacts.

(** Witness of X27: CAPE, which the sparse sample file does not hold. *)
Lemma _gobble_missing_variable_witness :
  exists e,
    fst (@_gobble sample_env (@open_all sample_env [iasi_path])
                  "CAPE" "CAPE" None false None) = Raise e.
Proof.
  apply (@_gobble_missing_variable sample_env
           (@open_all sample_env [iasi_path]) "CAPE" "CAPE" None false None
           {| filename := iasi_path; datasets := sparse_datasets |}).
  - left. reflexivity.
  - reflexivity.
Defined.

